(** * dlib Python bindings for the shape predictor
    (tools/python/src/shape_predictor.cpp)

    The binding functions are embedded as Rocq functions.  C++ exceptions
    are results of type [outcome]; calls into the rest of dlib (image
    conversion, the trainer, the evaluator, the predictor itself) are nodes
    of a program tree [prog], run against an explicit set of collaborators
    and a world state, with a log of the calls that were made. *)

From Stdlib Require Import ZArith NArith List String Reals Lra Lia.
From Stdlib Require SpecFloat.
From stdpp Require Import base option list.

Local Open Scope string_scope.
Local Open Scope list_scope.
Local Open Scope N_scope.

(** ** Values shared with dlib *)

(** C++ [double].  A value stands for the real number it denotes, and the
    arithmetic on it is that of the reals: the rounding of a result is not
    part of this type.  Where rounding decides a property, the same formulas
    are given on [binary64] below. *)
Abbreviation double := R.

(** IEEE 754 binary64, the format of a C++ [double]: 53 bits of precision,
    exponents below 1024, results rounded to nearest, ties to even. *)
Abbreviation binary64 := SpecFloat.spec_float.


(** The binary64 nearest to an integer; an infinity when the integer is
    beyond the range of the format. *)
Definition b64_of_Z (z : Z) : binary64 :=
  SpecFloat.binary_normalize 53 1024 z 0 false.

(** The real number a finite binary64 denotes. *)
Definition b64_to_R (x : binary64) : option double :=
  match x with
  | SpecFloat.S754_zero _ => Some 0%R
  | SpecFloat.S754_finite s m e =>
      Some ((if s then - IZR (Z.pos m) else IZR (Z.pos m)) * powerRZ 2 e)%R
  | SpecFloat.S754_infinity _ => None
  | SpecFloat.S754_nan => None
  end.

(** Modelled from the spec: the class [dlib::point] is declared in
    dlib/geometry.h, which is not part of this source file.  The data
    model of the spec gives a Point as a pair (x, y) of floating-point
    coordinates. *)
Record point : Type := mk_point { px : double; py : double }.

(** Modelled from the spec: [dlib::rectangle] (dlib/geometry.h), a
    BoundingBox (left, top, right, bottom). *)
Record rectangle : Type := mk_rectangle
  { r_left : double; r_top : double; r_right : double; r_bottom : double }.

(** Modelled from the spec: [dlib::full_object_detection]
    (dlib/image_processing.h), a BoundingBox together with a Shape, the
    ordered sequence of its landmark points. *)
Record full_object_detection : Type := mk_full_object_detection
  { rect : rectangle; parts : list point }.

(** A default-constructed [point], the value a sized [std::vector<point>]
    starts with. *)
Definition point_default : point := mk_point 0%R 0%R.

(** ** Exceptions and results *)

(** The text of a [TypeError] or an [OverflowError] is CPython's or
    Boost.Python's, not this file's, and is left out. *)
Inductive exception : Type :=
| dlib_error (msg : string)        (* throw dlib::error(msg) *)
| PyExc_IndexError (msg : string)  (* PyErr_SetString(PyExc_IndexError, msg) *)
| PyExc_TypeError                  (* a failed extract<T>, len() or [] *)
| PyExc_OverflowError              (* an int that no double can hold *)
| foreign_error (msg : string).    (* anything a collaborator throws *)

Inductive outcome (A : Type) : Type :=
| Ok (a : A)
| Raise (e : exception).
Arguments Ok {A} a.
Arguments Raise {A} e.

(** Sequencing, shared by [outcome] and by the programs below. *)
Class Monad (M : Type → Type) : Type :=
  { ret : ∀ {A : Type}, A → M A;
    bind : ∀ {A B : Type}, M A → (A → M B) → M B }.

#[global] Instance outcome_monad : Monad outcome :=
  { ret := fun A a => Ok a;
    bind := fun A B m f =>
      match m with
      | Ok a => f a
      | Raise e => Raise e
      end }.

Declare Scope outcome_scope.
Delimit Scope outcome_scope with outcome.
Bind Scope outcome_scope with outcome.
Notation "x <- m ;; k" := (bind (M:=outcome) m (fun x => k))
  (at level 100, m at next level, right associativity) : outcome_scope.

(** [for (unsigned long j = from; j < from + n; ++j) s = body(j, s)], in any
    monad; [n] is the number of iterations left.  An [unsigned long] is a
    number in [N]: the counters below stay under a length, so [++j] never
    wraps. *)
Fixpoint for_range {M : Type → Type} `{!Monad M} {S : Type}
    (n : nat) (j : N) (body : N → S → M S) (s : S) : M S :=
  match n with
  | O => ret s
  | Datatypes.S n' => bind (body j s) (for_range n' (j + 1) body)
  end.

(** ** Python values *)

(** A numpy array as the binding sees it: an image candidate.  Whether it
    is an 8 bit grey or RGB image is decided by the predicates of
    conversion.h. *)
Record ndarray : Type := mk_ndarray
  { nd_dtype : string; nd_shape : list N; nd_data : list Z }.

(** The Python values the binding receives as [boost::python::object].
    The sequences of this model are Python lists: only a list is given a
    length and an index operator.  A numpy array appears as an image; an
    array passed where the binding expects a sequence is not covered, and
    the properties below that depend on a length are stated for lists. *)
#[warnings="-register-all"]
Inductive object : Type :=
| PyNone
| PyInt (z : Z)
| PyFloat (d : double)
| PyList (items : list object)
| PyArray (a : ndarray)
| PyRectangle (r : rectangle)
| PyPoint (p : point)
| PyFullObjectDetection (d : full_object_detection).

(** [boost::python::len(o)], for the sequences of this model. *)
Definition len (o : object) : outcome N :=
  match o with
  | PyList items => Ok (N.of_nat (length items))
  | _ => Raise PyExc_TypeError
  end.

(** [o[i]], for the sequences of this model. *)
Definition getitem (o : object) (i : N) : outcome object :=
  match o with
  | PyList items =>
      match items !! N.to_nat i with
      | Some x => Ok x
      | None => Raise (PyExc_IndexError "list index out of range")
      end
  | _ => Raise PyExc_TypeError
  end.

(** [extract<rectangle>(o)] *)
Definition extract_rectangle (o : object) : outcome rectangle :=
  match o with
  | PyRectangle r => Ok r
  | _ => Raise PyExc_TypeError
  end.

(** [extract<point>(o)] *)
Definition extract_point (o : object) : outcome point :=
  match o with
  | PyPoint p => Ok p
  | _ => Raise PyExc_TypeError
  end.

(** [extract<full_object_detection>(o)] *)
Definition extract_full_object_detection (o : object)
    : outcome full_object_detection :=
  match o with
  | PyFullObjectDetection d => Ok d
  | _ => Raise PyExc_TypeError
  end.

(** [extract<double>(o)]: a Python float, or an int converted to the
    nearest double; an int beyond the range of a double is an
    [OverflowError]. *)
Definition extract_double (o : object) : outcome double :=
  match o with
  | PyFloat d => Ok d
  | PyInt z =>
      match b64_to_R (b64_of_Z z) with
      | Some d => Ok d
      | None => Raise PyExc_OverflowError
      end
  | _ => Raise PyExc_TypeError
  end.

(** ** full_object_detection: the class and its accessors *)

(** [detection.get_rect()] *)
Definition get_rect (detection : full_object_detection) : rectangle :=
  rect detection.

(** [detection.num_parts()] *)
Definition num_parts (detection : full_object_detection) : N :=
  N.of_nat (length (parts detection)).

(** [detection.part(idx)], which requires [idx < num_parts()]. *)
Definition part (detection : full_object_detection) (idx : N) : outcome point :=
  match parts detection !! N.to_nat idx with
  | Some p => Ok p
  | None => Raise (dlib_error "full_object_detection::part() requires idx < num_parts()")
  end.

Definition full_obj_det_get_rect (detection : full_object_detection) : rectangle :=
  get_rect detection.

Definition full_obj_det_num_parts (detection : full_object_detection) : N :=
  num_parts detection.

(** [idx] is an [unsigned long]: the test [idx < 0] is kept as written. *)
Definition full_obj_det_part (detection : full_object_detection) (idx : N)
    : outcome point :=
  if (idx <? 0) || (num_parts detection <=? idx)
  then Raise (PyExc_IndexError "Index out of range")
  else part detection idx.

Definition full_obj_det_parts (detection : full_object_detection)
    : outcome (list point) :=
  let num_parts := num_parts detection in
  let parts := replicate (N.to_nat num_parts) point_default in
  for_range (N.to_nat num_parts) 0
    (fun j parts =>
       (p <- part detection j;;
        ret (<[N.to_nat j := p]> parts))%outcome)
    parts.

Definition full_obj_det_init (pyrect pyparts : object)
    : outcome full_object_detection :=
  (num_parts <- len pyparts;;
   let parts := replicate (N.to_nat num_parts) point_default in
   rect <- extract_rectangle pyrect;;
   parts <- for_range (N.to_nat num_parts) 0
     (fun j parts =>
        (o <- getitem pyparts j;;
         p <- extract_point o;;
         ret (<[N.to_nat j := p]> parts))%outcome)
     parts;;
   ret (mk_full_object_detection rect parts))%outcome.

(** ** The trained model *)

(** An ordered set of landmark points. *)
Definition shape : Type := list point.

(** Modelled from the spec: [dlib::shape_predictor] and its parts are
    declared in dlib/image_processing.h.  The data model of the spec: a
    SplitFeature is a pair of feature-pool indices and an intensity-difference
    threshold; a RegressionTree is a binary tree of SplitFeature decision
    nodes whose leaves hold a Shape-sized correction vector; a feature-pool
    location is an anchor landmark id with a relative offset; a CascadeStage
    is an ordered sequence of trees with the feature-pool locations they
    share; the model is the initial mean Shape (normalized) and the ordered
    sequence of stages. *)
Record split_feature : Type := mk_split_feature
  { idx1 : N; idx2 : N; thresh : double }.

Inductive regression_tree : Type :=
| Leaf (correction : shape)
| Node (split : split_feature) (lo hi : regression_tree).

Record pool_location : Type := mk_pool_location
  { anchor : N; offset : point }.

Record cascade_stage : Type := mk_cascade_stage
  { pool : list pool_location; forest : list regression_tree }.

Record shape_predictor : Type := mk_shape_predictor
  { initial_shape : shape; cascade : list cascade_stage }.

(** Modelled from the spec: [shape_predictor_training_options] is declared in
    shape_predictor.h; the fields are those [bind_shape_predictors] exposes
    as properties, the TrainingOptions of the spec. *)
Record shape_predictor_training_options : Type :=
  mk_shape_predictor_training_options
  { be_verbose : bool;
    cascade_depth : N;
    tree_depth : N;
    num_trees_per_cascade_level : N;
    nu : double;
    oversampling_amount : N;
    feature_pool_size : N;
    lambda : double;
    num_test_splits : N;
    feature_pool_region_padding : double;
    random_seed : string }.

(** ** Images *)

Record rgb_pixel : Type := mk_rgb_pixel { red : N; green : N; blue : N }.

(** [array2d<rgb_pixel>], by rows; a default-constructed one is empty. *)
Abbreviation array2d_rgb := (list (list rgb_pixel)).

(** What the predictor is applied to: the numpy wrappers of conversion.h and
    dlib's own image type. *)
Inductive image_view : Type :=
| numpy_gray_image (img : object)
| numpy_rgb_image (img : object)
| dlib_rgb_image (img : array2d_rgb).

(** ** Programs that call into dlib *)

(** A binding function is a tree: it returns, throws, or calls a function
    that lives outside this file and goes on with what that function
    returned.  The two image predicates are pure queries. *)
Inductive prog (A : Type) : Type :=
| Ret (a : A)
| Throw (e : exception)
| Ask_is_gray_python_image (img : object) (k : bool → prog A)
| Ask_is_rgb_python_image (img : object) (k : bool → prog A)
| Call_pyimage_to_dlib_image (pyimage : object) (k : array2d_rgb → prog A)
| Call_images_and_nested_params_to_dlib
    (pyimages pydetections : object)
    (images : list array2d_rgb) (detections : list (list full_object_detection))
    (k : list array2d_rgb * list (list full_object_detection) → prog A)
| Call_train_shape_predictor_on_images
    (dataset_filename : string)
    (images : list array2d_rgb) (detections : list (list full_object_detection))
    (predictor_output_filename : string)
    (options : shape_predictor_training_options)
    (k : unit → prog A)
| Call_test_shape_predictor_with_images
    (images : list array2d_rgb) (detections : list (list full_object_detection))
    (scales : list (list double)) (predictor_filename : string)
    (k : double → prog A)
| Call_predictor
    (predictor : shape_predictor) (img : image_view) (box : rectangle)
    (k : full_object_detection → prog A).
Arguments Ret {A} a.
Arguments Throw {A} e.
Arguments Ask_is_gray_python_image {A} img k.
Arguments Ask_is_rgb_python_image {A} img k.
Arguments Call_pyimage_to_dlib_image {A} pyimage k.
Arguments Call_images_and_nested_params_to_dlib {A} pyimages pydetections images detections k.
Arguments Call_train_shape_predictor_on_images {A} dataset_filename images detections predictor_output_filename options k.
Arguments Call_test_shape_predictor_with_images {A} images detections scales predictor_filename k.
Arguments Call_predictor {A} predictor img box k.

Fixpoint prog_bind_fix {A B : Type} (f : A → prog B) (p : prog A) : prog B :=
  match p with
  | Ret a => f a
  | Throw e => Throw e
  | Ask_is_gray_python_image img k =>
      Ask_is_gray_python_image img (fun b => prog_bind_fix f (k b))
  | Ask_is_rgb_python_image img k =>
      Ask_is_rgb_python_image img (fun b => prog_bind_fix f (k b))
  | Call_pyimage_to_dlib_image o k =>
      Call_pyimage_to_dlib_image o (fun x => prog_bind_fix f (k x))
  | Call_images_and_nested_params_to_dlib a b c d k =>
      Call_images_and_nested_params_to_dlib a b c d (fun x => prog_bind_fix f (k x))
  | Call_train_shape_predictor_on_images a b c d e k =>
      Call_train_shape_predictor_on_images a b c d e (fun x => prog_bind_fix f (k x))
  | Call_test_shape_predictor_with_images a b c d k =>
      Call_test_shape_predictor_with_images a b c d (fun x => prog_bind_fix f (k x))
  | Call_predictor a b c k =>
      Call_predictor a b c (fun x => prog_bind_fix f (k x))
  end.

#[global] Instance prog_monad : Monad prog :=
  { ret := fun A a => Ret a;
    bind := fun A B p f => prog_bind_fix f p }.

Declare Scope prog_scope.
Delimit Scope prog_scope with prog.
Bind Scope prog_scope with prog.
Notation "x <- m ;; k" := (bind (M:=prog) m (fun x => k))
  (at level 100, m at next level, right associativity) : prog_scope.

(** A computation that can only return or throw, inside a program. *)
Definition lift {A : Type} (m : outcome A) : prog A :=
  match m with
  | Ok a => Ret a
  | Raise e => Throw e
  end.

Definition is_gray_python_image (img : object) : prog bool :=
  Ask_is_gray_python_image img Ret.
Definition is_rgb_python_image (img : object) : prog bool :=
  Ask_is_rgb_python_image img Ret.
Definition pyimage_to_dlib_image (pyimage : object) : prog array2d_rgb :=
  Call_pyimage_to_dlib_image pyimage Ret.
Definition images_and_nested_params_to_dlib (pyimages pydetections : object)
    (images : list array2d_rgb) (detections : list (list full_object_detection))
    : prog (list array2d_rgb * list (list full_object_detection)) :=
  Call_images_and_nested_params_to_dlib pyimages pydetections images detections Ret.
Definition train_shape_predictor_on_images (dataset_filename : string)
    (images : list array2d_rgb) (detections : list (list full_object_detection))
    (predictor_output_filename : string)
    (options : shape_predictor_training_options) : prog unit :=
  Call_train_shape_predictor_on_images
    dataset_filename images detections predictor_output_filename options Ret.
Definition test_shape_predictor_with_images
    (images : list array2d_rgb) (detections : list (list full_object_detection))
    (scales : list (list double)) (predictor_filename : string) : prog double :=
  Call_test_shape_predictor_with_images images detections scales predictor_filename Ret.
Definition predictor_call (predictor : shape_predictor) (img : image_view)
    (box : rectangle) : prog full_object_detection :=
  Call_predictor predictor img box Ret.

(** The calls a run makes, in order. *)
Inductive event : Type :=
| Ev_pyimage_to_dlib_image (pyimage : object)
| Ev_images_and_nested_params_to_dlib (pyimages pydetections : object)
| Ev_train_shape_predictor_on_images
    (images : list array2d_rgb) (detections : list (list full_object_detection))
    (predictor_output_filename : string)
    (options : shape_predictor_training_options)
| Ev_test_shape_predictor_with_images
    (images : list array2d_rgb) (detections : list (list full_object_detection))
    (scales : list (list double)) (predictor_filename : string)
| Ev_predictor (predictor : shape_predictor) (img : image_view) (box : rectangle).

(** The functions behind the calls, over a world [W] (files, loaded images,
    whatever they touch).  Each may throw and may change the world. *)
Module Dlib.
Record collaborators (W : Type) : Type := mk_collaborators
  { is_gray_python_image : object → bool;
    is_rgb_python_image : object → bool;
    pyimage_to_dlib_image : object → W → outcome array2d_rgb * W;
    images_and_nested_params_to_dlib :
      object → object → list array2d_rgb → list (list full_object_detection) →
      W → outcome (list array2d_rgb * list (list full_object_detection)) * W;
    train_shape_predictor_on_images :
      string → list array2d_rgb → list (list full_object_detection) → string →
      shape_predictor_training_options → W → outcome unit * W;
    test_shape_predictor_with_images :
      list array2d_rgb → list (list full_object_detection) →
      list (list double) → string → W → outcome double * W;
    predictor_call :
      shape_predictor → image_view → rectangle →
      W → outcome full_object_detection * W }.
Arguments is_gray_python_image {W} c.
Arguments is_rgb_python_image {W} c.
Arguments pyimage_to_dlib_image {W} c.
Arguments images_and_nested_params_to_dlib {W} c.
Arguments train_shape_predictor_on_images {W} c.
Arguments test_shape_predictor_with_images {W} c.
Arguments predictor_call {W} c.
End Dlib.

(** Result of a run: what the function returned or threw, the world after
    it, and the calls it made. *)
Record ran (W A : Type) : Type := mk_ran
  { result : outcome A; world : W; calls : list event }.
Arguments mk_ran {W A} result world calls.
Arguments result {W A} r.
Arguments world {W A} r.
Arguments calls {W A} r.

(** After a call: log it, and go on unless it threw. *)
Definition after_call {W A X : Type} (ev : event) (r : outcome X * W)
    (k : X → W → ran W A) : ran W A :=
  match r with
  | (Ok x, w') => let r' := k x w' in mk_ran (result r') (world r') (ev :: calls r')
  | (Raise e, w') => mk_ran (Raise e) w' [ev]
  end.

Fixpoint run {W A : Type} (h : Dlib.collaborators W) (p : prog A) (w : W)
    : ran W A :=
  match p with
  | Ret a => mk_ran (Ok a) w []
  | Throw e => mk_ran (Raise e) w []
  | Ask_is_gray_python_image img k => run h (k (Dlib.is_gray_python_image h img)) w
  | Ask_is_rgb_python_image img k => run h (k (Dlib.is_rgb_python_image h img)) w
  | Call_pyimage_to_dlib_image o k =>
      after_call (Ev_pyimage_to_dlib_image o)
        (Dlib.pyimage_to_dlib_image h o w) (fun x => run h (k x))
  | Call_images_and_nested_params_to_dlib a b c d k =>
      after_call (Ev_images_and_nested_params_to_dlib a b)
        (Dlib.images_and_nested_params_to_dlib h a b c d w) (fun x => run h (k x))
  | Call_train_shape_predictor_on_images a b c d e k =>
      after_call (Ev_train_shape_predictor_on_images b c d e)
        (Dlib.train_shape_predictor_on_images h a b c d e w) (fun x => run h (k x))
  | Call_test_shape_predictor_with_images a b c d k =>
      after_call (Ev_test_shape_predictor_with_images a b c d)
        (Dlib.test_shape_predictor_with_images h a b c d w) (fun x => run h (k x))
  | Call_predictor a b c k =>
      after_call (Ev_predictor a b c)
        (Dlib.predictor_call h a b c w) (fun x => run h (k x))
  end.

(** ** The binding functions *)

(** The two messages of the length checks. *)
Definition images_length_error : exception :=
  dlib_error
    "The length of the detections list must match the length of the images list.".

Definition scales_length_error : exception :=
  dlib_error
    "The length of the scales list must match the length of the detections list.".

Definition unsupported_image_error : exception :=
  dlib_error "Unsupported image type, must be 8bit gray or RGB image.".

Definition run_predictor (predictor : shape_predictor) (img rect : object)
    : prog full_object_detection :=
  (box <- lift (extract_rectangle rect);;
   gray <- is_gray_python_image img;;
   if gray then predictor_call predictor (numpy_gray_image img) box
   else
     rgb <- is_rgb_python_image img;;
     if rgb then predictor_call predictor (numpy_rgb_image img) box
     else Throw unsupported_image_error)%prog.

Definition train_shape_predictor_on_images_py (pyimages pydetections : object)
    (predictor_output_filename : string)
    (options : shape_predictor_training_options) : prog unit :=
  (num_images <- lift (len pyimages);;
   num_detections <- lift (len pydetections);;
   if negb (num_images =? num_detections)
   then Throw images_length_error
   else
     let detections : list (list full_object_detection) :=
       replicate (N.to_nat num_images) [] in
     let images : list array2d_rgb := replicate (N.to_nat num_images) [] in
     converted <-
       images_and_nested_params_to_dlib pyimages pydetections images detections;;
     let '(images, detections) := converted in
     train_shape_predictor_on_images "" images detections
       predictor_output_filename options)%prog.

(** The three containers the copy loop of the test function fills. *)
Abbreviation test_data :=
  (list array2d_rgb * list (list full_object_detection) * list (list double))%type.

(** The loop over [j] that appends the boxes of image [i] to
    [detections[i]]; [i] is below the size of [detections]. *)
Definition copy_boxes (pydetections : object) (i num_boxes : N)
    (detections : list (list full_object_detection))
    : outcome (list (list full_object_detection)) :=
  for_range (N.to_nat num_boxes) 0
    (fun j (detections : list (list full_object_detection)) =>
       (row <- getitem pydetections i;;
        o <- getitem row j;;
        d <- extract_full_object_detection o;;
        ret (alter (fun v => v ++ [d]) (N.to_nat i) detections))%outcome)
    detections.

(** The loop over [j] that appends the scales of image [i] to [scales[i]];
    it runs after the size checks, so [i] is below the size of [scales]. *)
Definition copy_scales (pyscales : object) (i num_boxes : N)
    (scales : list (list double)) : outcome (list (list double)) :=
  for_range (N.to_nat num_boxes) 0
    (fun j (scales : list (list double)) =>
       (srow <- getitem pyscales i;;
        o <- getitem srow j;;
        s <- extract_double o;;
        ret (alter (fun v => v ++ [s]) (N.to_nat i) scales))%outcome)
    scales.

(** The block guarded by [num_scales > 0]: the length check for image [i],
    then the loop above. *)
Definition check_and_copy_scales (pyscales : object) (i num_boxes : N)
    (scales : list (list double)) : outcome (list (list double)) :=
  (srow <- getitem pyscales i;;
   num_row_scales <- len srow;;
   if negb (num_boxes =? num_row_scales)
   then Raise scales_length_error
   else copy_scales pyscales i num_boxes scales)%outcome.

(** Body of the loop over [i] in [test_shape_predictor_with_images_py]. *)
Definition test_copy_image (pyimages pydetections pyscales : object)
    (num_scales : N) (i : N) (st : test_data) : prog test_data :=
  let '(images, detections, scales) := st in
  (row <- lift (getitem pydetections i);;
   num_boxes <- lift (len row);;
   detections <- lift (copy_boxes pydetections i num_boxes detections);;
   pyimage <- lift (getitem pyimages i);;
   image <- pyimage_to_dlib_image pyimage;;
   let images := <[N.to_nat i := image]> images in
   scales <- lift (if 0 <? num_scales
                   then check_and_copy_scales pyscales i num_boxes scales
                   else ret scales);;
   ret (images, detections, scales))%prog.

(** What a pass of the loop has computed when it reaches the image
    conversion: the number of boxes, the detections with the boxes of image
    [i] appended, and the image to convert. *)
Definition test_copy_head (pyimages pydetections : object) (i : N)
    (detections : list (list full_object_detection))
    : outcome (N * list (list full_object_detection) * object) :=
  (row <- getitem pydetections i;;
   num_boxes <- len row;;
   detections' <- copy_boxes pydetections i num_boxes detections;;
   pyimage <- getitem pyimages i;;
   ret (num_boxes, detections', pyimage))%outcome.

Definition test_shape_predictor_with_images_py
    (pyimages pydetections pyscales : object) (predictor_filename : string)
    : prog double :=
  (num_images <- lift (len pyimages);;
   num_scales <- lift (len pyscales);;
   num_detections <- lift (len pydetections);;
   if negb (num_images =? num_detections)
   then Throw images_length_error
   else if (0 <? num_scales) && negb (num_scales =? num_images)
   then Throw scales_length_error
   else
     let detections : list (list full_object_detection) :=
       replicate (N.to_nat num_images) [] in
     let scales : list (list double) :=
       if 0 <? num_scales then replicate (N.to_nat num_scales) [] else [] in
     let images : list array2d_rgb := replicate (N.to_nat num_images) [] in
     copied <-
       for_range (N.to_nat num_images) 0
         (test_copy_image pyimages pydetections pyscales num_scales)
         (images, detections, scales);;
     let '(images, detections, scales) := copied in
     test_shape_predictor_with_images images detections scales
       predictor_filename)%prog.

Definition test_shape_predictor_with_images_no_scales_py
    (pyimages pydetections : object) (predictor_filename : string) : prog double :=
  let pyscales := PyList [] in
  test_shape_predictor_with_images_py pyimages pydetections pyscales predictor_filename.

(** ** Geometry of shapes (spec, section 4.1) *)

(** An axis-aligned similarity: a scale and a translation per axis, four
    parameters in all, no rotation. *)
Record similarity : Type := mk_similarity
  { sx : double; sy : double; tx : double; ty : double }.

Definition apply_similarity (t : similarity) (p : point) : point :=
  mk_point (sx t * px p + tx t)%R (sy t * py p + ty t)%R.


Definition width (b : rectangle) : double := (r_right b - r_left b)%R.
Definition height (b : rectangle) : double := (r_bottom b - r_top b)%R.


(** The similarity that sends the unit square onto [b]. *)
Definition box_similarity (b : rectangle) : similarity :=
  mk_similarity (width b) (height b) (r_left b) (r_top b).


(** Modelled from the spec: [denormalize], the inverse of [normalize]
    (section 4.1): it maps each point through the similarity that sends the
    unit square onto the box. *)
Definition denormalize (s : shape) (b : rectangle) : shape :=
  map (apply_similarity (box_similarity b)) s.

(** *** The same transforms on binary64 coordinates *)















(** ** Inference (spec, sections 4.2, 4.4, 4.5 and 4.6) *)

(** Read-only pixel access: the intensity of an image at a position in
    absolute image coordinates, zero outside the image.  Provided by the
    image source. *)
Definition pixel_source : Type := image_view → point → double.

Definition add_point (p q : point) : point :=
  mk_point (px p + px q)%R (py p + py q)%R.

Definition add_shape (s correction : shape) : shape :=
  zip_with add_point s correction.

Definition landmark (s : shape) (i : N) : point :=
  default point_default (s !! N.to_nat i).

(** The pixel a feature-pool location designates: its anchor landmark in
    the current estimate, moved by the offset, taken to image coordinates. *)
Definition pool_pixel (intensity : pixel_source) (img : image_view)
    (box : rectangle) (current : shape) (loc : pool_location) : double :=
  intensity img
    (apply_similarity (box_similarity box)
       (add_point (landmark current (anchor loc)) (offset loc))).

Definition extract_features (intensity : pixel_source) (img : image_view)
    (box : rectangle) (current : shape) (locations : list pool_location)
    : list double :=
  map (pool_pixel intensity img box current) locations.

Definition feature (features : list double) (i : N) : double :=
  default 0%R (features !! N.to_nat i).

(** Walk from the root: right when the intensity difference is greater than
    the threshold, left otherwise; the leaf reached gives the correction. *)
Fixpoint eval_tree (features : list double) (t : regression_tree) : shape :=
  match t with
  | Leaf correction => correction
  | Node f lo hi =>
      if Rlt_dec (thresh f) (feature features (idx1 f) - feature features (idx2 f))%R
      then eval_tree features hi
      else eval_tree features lo
  end.

(** One stage: the features are read once, from the estimate the stage
    starts with, and the corrections of its trees are added up. *)
Definition eval_stage (intensity : pixel_source) (img : image_view)
    (box : rectangle) (current : shape) (stage : cascade_stage) : shape :=
  let features := extract_features intensity img box current (pool stage) in
  fold_left (fun estimate t => add_shape estimate (eval_tree features t))
    (forest stage) current.

(** Modelled from the spec: [shape_predictor::operator()] is part of dlib,
    not of this source file.  Section 4.6: start from the initial mean
    shape, apply every stage in order, return the shape in absolute
    coordinates inside the box. *)
Definition predict (intensity : pixel_source) (model : shape_predictor)
    (img : image_view) (box : rectangle) : full_object_detection :=
  let final := fold_left (eval_stage intensity img box) (cascade model)
                 (initial_shape model) in
  mk_full_object_detection box (denormalize final box).

(** ** Persistence (spec, section 6) *)

(** The serialized form, as a sequence of numbers: counts and indices, and
    floating-point values. *)
Inductive token : Type :=
| TNat (n : N)
| TReal (d : double).

Definition parser (A : Type) : Type := list token → option (A * list token).

Definition put_list {A : Type} (put : A → list token) (l : list A) : list token :=
  TNat (N.of_nat (length l)) :: concat (map put l).

Definition get_nat : parser N := fun ts =>
  match ts with
  | TNat n :: ts' => Some (n, ts')
  | _ => None
  end.

Fixpoint get_many {A : Type} (get : parser A) (n : nat) : parser (list A) :=
  fun ts =>
  match n with
  | O => Some ([], ts)
  | S n' =>
      match get ts with
      | Some (x, ts') =>
          match get_many get n' ts' with
          | Some (xs, ts'') => Some (x :: xs, ts'')
          | None => None
          end
      | None => None
      end
  end.

Definition get_list {A : Type} (get : parser A) : parser (list A) := fun ts =>
  match get_nat ts with
  | Some (n, ts') => get_many get (N.to_nat n) ts'
  | None => None
  end.

Definition put_point (p : point) : list token := [TReal (px p); TReal (py p)].

Definition get_point : parser point := fun ts =>
  match ts with
  | TReal x :: TReal y :: ts' => Some (mk_point x y, ts')
  | _ => None
  end.

Definition put_shape : shape → list token := put_list put_point.
Definition get_shape : parser shape := get_list get_point.

Definition put_split (f : split_feature) : list token :=
  [TNat (idx1 f); TNat (idx2 f); TReal (thresh f)].

Definition get_split : parser split_feature := fun ts =>
  match ts with
  | TNat i :: TNat j :: TReal t :: ts' => Some (mk_split_feature i j t, ts')
  | _ => None
  end.

(** Nodes in a fixed order: a node, its left subtree, its right subtree. *)
Fixpoint put_tree (t : regression_tree) : list token :=
  match t with
  | Leaf correction => TNat 0 :: put_shape correction
  | Node f lo hi => TNat 1 :: put_split f ++ put_tree lo ++ put_tree hi
  end.

Fixpoint get_tree (fuel : nat) : parser regression_tree := fun ts =>
  match fuel with
  | O => None
  | S fuel' =>
      match ts with
      | TNat 0 :: ts' =>
          match get_shape ts' with
          | Some (correction, rest) => Some (Leaf correction, rest)
          | None => None
          end
      | TNat 1 :: ts' =>
          match get_split ts' with
          | Some (f, ts1) =>
              match get_tree fuel' ts1 with
              | Some (lo, ts2) =>
                  match get_tree fuel' ts2 with
                  | Some (hi, rest) => Some (Node f lo hi, rest)
                  | None => None
                  end
              | None => None
              end
          | None => None
          end
      | _ => None
      end
  end.

(** Number of nodes and leaves. *)
Fixpoint tree_size (t : regression_tree) : nat :=
  match t with
  | Leaf _ => 1%nat
  | Node _ lo hi => Datatypes.S (tree_size lo + tree_size hi)
  end.

Definition put_pool_location (loc : pool_location) : list token :=
  TNat (anchor loc) :: put_point (offset loc).

Definition get_pool_location : parser pool_location := fun ts =>
  match ts with
  | TNat a :: ts' =>
      match get_point ts' with
      | Some (o, rest) => Some (mk_pool_location a o, rest)
      | None => None
      end
  | _ => None
  end.

Definition put_stage (stage : cascade_stage) : list token :=
  put_list put_pool_location (pool stage) ++ put_list put_tree (forest stage).

Definition get_stage : parser cascade_stage := fun ts =>
  match get_list get_pool_location ts with
  | Some (locations, ts') =>
      match get_list (fun ts => get_tree (length ts) ts) ts' with
      | Some (trees, rest) => Some (mk_cascade_stage locations trees, rest)
      | None => None
      end
  | None => None
  end.

Definition serialization_version : N := 1.

(** Modelled from the spec: [serialize] and [deserialize] for
    [shape_predictor], which [serialize_pickle<shape_predictor>] hands to
    Python's pickle, are part of dlib and not of this source file.
    Section 6: a versioned layout that keeps the initial mean shape and, for
    each stage, the feature-pool locations and, for each tree, every node's
    split feature in a fixed traversal order and every leaf's correction. *)
Definition serialize (model : shape_predictor) : list token :=
  TNat serialization_version ::
  put_shape (initial_shape model) ++ put_list put_stage (cascade model).

(** Modelled from the spec: [deserialize], the reader of the layout
    [serialize] writes (section 6); it rejects another version and input
    that does not end where the model ends. *)
Definition deserialize (ts : list token) : outcome shape_predictor :=
  match ts with
  | TNat v :: ts' =>
      if v =? serialization_version then
        match get_shape ts' with
        | Some (initial, ts1) =>
            match get_list get_stage ts1 with
            | Some (stages, []) => Ok (mk_shape_predictor initial stages)
            | _ => Raise (dlib_error "Error deserializing object of type shape_predictor")
            end
        | None => Raise (dlib_error "Error deserializing object of type shape_predictor")
        end
      else Raise (dlib_error "Unexpected version found while deserializing shape_predictor")
  | _ => Raise (dlib_error "Error deserializing object of type shape_predictor")
  end.

(** ** Evaluation (spec, section 4.8) *)

(** Euclidean distance between two points. *)
Definition distance (p q : point) : double :=
  sqrt ((px p - px q) * (px p - px q) + (py p - py q) * (py p - py q))%R.

(** The scale of instance [j] of image [i]; none when no scales were
    supplied, that is when the list of scales is empty. *)
Definition scale_at (scales : list (list double)) (i j : nat) : option double :=
  match scales with
  | [] => None
  | _ => match scales !! i with
         | Some row => row !! j
         | None => None
         end
  end.

(** A distance, divided by the scale if there is one. *)
Definition scaled (s : option double) (x : double) : double :=
  match s with
  | Some k => (x / k)%R
  | None => x
  end.

(** Per-landmark errors of one labeled instance: run inference in its box
    and compare with the labeled points. *)
Definition instance_errors (intensity : pixel_source) (model : shape_predictor)
    (img : array2d_rgb) (truth : full_object_detection) (s : option double)
    : list double :=
  let predicted := predict intensity model (dlib_rgb_image img) (rect truth) in
  zip_with (fun p q => scaled s (distance p q)) (parts predicted) (parts truth).

Definition all_errors (intensity : pixel_source) (model : shape_predictor)
    (images : list array2d_rgb) (detections : list (list full_object_detection))
    (scales : list (list double)) : list double :=
  concat (imap (fun i (labeled : array2d_rgb * list full_object_detection) =>
            concat (imap (fun j truth =>
                      instance_errors intensity model labeled.1 truth
                        (scale_at scales i j))
                    labeled.2))
          (zip images detections)).

Definition mean (xs : list double) : double :=
  (fold_right Rplus 0 xs / INR (length xs))%R.

(** Modelled from the spec: the evaluator behind
    [test_shape_predictor_with_images] is part of dlib.  Section 4.8: run
    inference on every labeled instance, take the distance between predicted
    and labeled point for every landmark, each divided by the corresponding
    scale if scales are supplied, and return the mean over all landmarks and
    instances. *)
Definition evaluate (intensity : pixel_source) (model : shape_predictor)
    (images : list array2d_rgb) (detections : list (list full_object_detection))
    (scales : list (list double)) : double :=
  mean (all_errors intensity model images detections scales).

Fixpoint rows_agree {A B : Type} (xs : list (list A)) (ys : list (list B)) : bool :=
  match xs, ys with
  | [], [] => true
  | x :: xs', y :: ys' => Nat.eqb (length x) (length y) && rows_agree xs' ys'
  | _, _ => false
  end.

(** List lengths agree at both levels; an empty list of scales means that
    none were supplied. *)
Definition lengths_agree (images : list array2d_rgb)
    (detections : list (list full_object_detection))
    (scales : list (list double)) : bool :=
  Nat.eqb (length images) (length detections) &&
  match scales with
  | [] => true
  | _ => Nat.eqb (length scales) (length images) && rows_agree detections scales
  end.

(** Files of the world that hold serialized predictors. *)
Definition file_reader (W : Type) : Type := W → string → option (list token).

Definition load_shape_predictor {W : Type} (read : file_reader W)
    (filename : string) (w : W) : outcome shape_predictor :=
  match read w filename with
  | Some ts => deserialize ts
  | None => Raise (dlib_error "Unable to open file")
  end.

(** Modelled from the spec: [test_shape_predictor_with_images] is defined in
    shape_predictor.h, which is not part of this source file.  Section
    4.8: mismatched list lengths are rejected; otherwise the predictor is
    loaded from its file and evaluated. *)
Definition spec_test_shape_predictor_with_images {W : Type}
    (read : file_reader W) (intensity : pixel_source)
    (images : list array2d_rgb) (detections : list (list full_object_detection))
    (scales : list (list double)) (predictor_filename : string) (w : W)
    : outcome double * W :=
  if negb (lengths_agree images detections scales)
  then (Raise (dlib_error
         "The lists of images, detections and scales must have matching lengths."), w)
  else
    match load_shape_predictor read predictor_filename w with
    | Ok model => (Ok (evaluate intensity model images detections scales), w)
    | Raise e => (Raise e, w)
    end.

(** Modelled from the spec: applying a loaded predictor is a function of
    (model, image, box) that reads the image and changes nothing
    (section 4.6). *)
Definition spec_predictor_call {W : Type} (intensity : pixel_source)
    (predictor : shape_predictor) (img : image_view) (box : rectangle) (w : W)
    : outcome full_object_detection * W :=
  (Ok (predict intensity predictor img box), w).

(** Collaborators whose evaluator and predictor are the ones of the spec;
    the conversions are those of [base]. *)
Definition with_spec_inference {W : Type} (read : file_reader W)
    (intensity : pixel_source) (base : Dlib.collaborators W)
    : Dlib.collaborators W :=
  Dlib.mk_collaborators W
    (Dlib.is_gray_python_image base)
    (Dlib.is_rgb_python_image base)
    (Dlib.pyimage_to_dlib_image base)
    (Dlib.images_and_nested_params_to_dlib base)
    (Dlib.train_shape_predictor_on_images base)
    (spec_test_shape_predictor_with_images read intensity)
    (spec_predictor_call intensity).

(** ** Classifying the calls of a run *)

Definition is_conversion (ev : event) : bool :=
  match ev with
  | Ev_pyimage_to_dlib_image _ => true
  | Ev_images_and_nested_params_to_dlib _ _ => true
  | _ => false
  end.

Definition is_training (ev : event) : bool :=
  match ev with
  | Ev_train_shape_predictor_on_images _ _ _ _ => true
  | _ => false
  end.

Definition is_inference (ev : event) : bool :=
  match ev with
  | Ev_test_shape_predictor_with_images _ _ _ _ => true
  | Ev_predictor _ _ _ => true
  | _ => false
  end.

(** ** A small concrete world, for running the functions *)

(** Files by name. *)
Definition files : Type := list (string * list token).

Fixpoint read_file (w : files) (filename : string) : option (list token) :=
  match w with
  | [] => None
  | (name, content) :: w' =>
      if String.eqb name filename then Some content else read_file w' filename
  end.

(** An array is a grey image when it has two dimensions and an RGB image
    when it has three, the last of size 3. *)
Definition sample_is_gray (img : object) : bool :=
  match img with
  | PyArray a => Nat.eqb (length (nd_shape a)) 2
  | _ => false
  end.

Definition sample_is_rgb (img : object) : bool :=
  match img with
  | PyArray a => match nd_shape a with [_; _; 3] => true | _ => false end
  | _ => false
  end.

Definition sample_convert (img : object) (w : files) : outcome array2d_rgb * files :=
  if sample_is_gray img || sample_is_rgb img
  then (Ok [[mk_rgb_pixel 0 0 0]], w)
  else (Raise (dlib_error "Unsupported image type, must be 8bit gray or RGB image."), w).

Definition sample_pixels : pixel_source := fun _ _ => 0%R.

Definition sample_collaborators : Dlib.collaborators files :=
  with_spec_inference read_file sample_pixels
    (Dlib.mk_collaborators files
       sample_is_gray
       sample_is_rgb
       sample_convert
       (fun _ _ images detections w => (Ok (images, detections), w))
       (fun _ _ _ filename _ w =>
          (Ok tt, (filename, serialize (mk_shape_predictor [] [])) :: w))
       (fun _ _ _ _ w => (Ok 0%R, w))
       (fun _ _ box w => (Ok (mk_full_object_detection box []), w))).

Definition sample_gray : object := PyArray (mk_ndarray "uint8" [2; 2] [0; 0; 0; 0]%Z).
Definition sample_rgb : object := PyArray (mk_ndarray "uint8" [1; 1; 3] [0; 0; 0]%Z).
Definition sample_box : rectangle := mk_rectangle 0%R 0%R 2%R 2%R.
Definition sample_detection : full_object_detection :=
  mk_full_object_detection sample_box [mk_point 1%R 1%R; mk_point 2%R 1%R].
Definition sample_model : shape_predictor :=
  mk_shape_predictor
    [mk_point 0%R 0%R; mk_point 1%R 1%R]
    [mk_cascade_stage
       [mk_pool_location 0 (mk_point 0%R 0%R); mk_pool_location 1 (mk_point 0%R 0%R)]
       [Node (mk_split_feature 0 1 0%R)
          (Leaf [mk_point 0%R 0%R; mk_point 0%R 0%R])
          (Leaf [mk_point 1%R 0%R; mk_point 0%R 1%R])]].

(** ** Well-typed input with a first mismatch *)

(** Image [k] is the first whose list of scales is not as long as its list
    of boxes, and the copy loop gets as far as comparing the two: up to [k]
    the detections are lists of [full_object_detection] and the images
    convert, below [k] the scales are lists of floats of the right length. *)
Definition first_mismatch_at {W : Type} (h : Dlib.collaborators W)
    (images detections scales : list object) (k : nat) : Prop :=
  (∀ j, (j ≤ k)%nat →
     ∃ ds img,
       detections !! j = Some (PyList (map PyFullObjectDetection ds)) ∧
       images !! j = Some img ∧
       ∀ w, ∃ a w', Dlib.pyimage_to_dlib_image h img w = (Ok a, w')) ∧
  (∀ j, (j < k)%nat →
     ∃ ds ss,
       detections !! j = Some (PyList ds) ∧
       scales !! j = Some (PyList (map PyFloat ss)) ∧
       length ds = length ss) ∧
  (∃ ds ss,
     detections !! k = Some (PyList ds) ∧
     scales !! k = Some (PyList ss) ∧
     length ds ≠ length ss).

(** ** Scales that are all one *)




(** ** Well-typed input of the test function *)

(** Nested detections and nested scales as Python lists of lists. *)
Definition py_detections (detections : list (list full_object_detection))
    : list object :=
  map (fun row => PyList (map PyFullObjectDetection row)) detections.

Definition py_scales (scales : list (list double)) : list object :=
  map (fun row => PyList (map PyFloat row)) scales.

(** The images converted one after the other, each in the world the
    previous conversion left; the first failure ends it. *)
Fixpoint convert_all {W : Type} (h : Dlib.collaborators W)
    (pyimages : list object) (w : W) : outcome (list array2d_rgb) * W :=
  match pyimages with
  | [] => (Ok [], w)
  | pyimage :: rest =>
      match Dlib.pyimage_to_dlib_image h pyimage w with
      | (Ok image, w') =>
          match convert_all h rest w' with
          | (Ok images, w'') => (Ok (image :: images), w'')
          | (Raise e, w'') => (Raise e, w'')
          end
      | (Raise e, w') => (Raise e, w')
      end
  end.

(** No scales, or one row of scales per row of detections, of the same
    length. *)
Definition scales_fit (detections : list (list full_object_detection))
    (scales : list (list double)) : Prop :=
  scales = [] ∨ Forall2 (fun d s => length d = length s) detections scales.

(** The containers handed to the evaluator agree in length at both
    levels. *)
Definition containers_agree (st : test_data) : Prop :=
  let '(images, detections, scales) := st in
  length images = length detections ∧ scales_fit detections scales.

(** State of the copy loop of the test function before pass [i] of [n], on
    any input: the containers have their sizes, the rows from [i] on are
    still empty, and below [i] a row of scales, when scales are copied, is
    as long as the row of detections. *)
Definition copy_invariant (num_scales : N) (n i : nat) (st : test_data) : Prop :=
  let '(images, detections, scales) := st in
  length images = n ∧ length detections = n ∧
  (if 0 <? num_scales then length scales = n else scales = []) ∧
  (∀ k, (i ≤ k < n)%nat →
     detections !! k = Some [] ∧
     ((0 <? num_scales) = true → scales !! k = Some [])) ∧
  (∀ k d, (k < i)%nat → detections !! k = Some d → (0 <? num_scales) = true →
     ∃ s, scales !! k = Some s ∧ length d = length s).

(** The first [i] rows of [rows], followed by [m] empty rows. *)
Definition filled_upto {A : Type} (i m : nat) (rows : list (list A))
    : list (list A) :=
  take i rows ++ replicate m [].

(** The scales container before pass [i] on well-typed input: empty when
    no scales were given. *)
Definition scales_upto (i m : nat) (scales : list (list double))
    : list (list double) :=
  match scales with
  | [] => []
  | _ => filled_upto i m scales
  end.

(** * Properties *)

(** ** Running programs *)

Lemma run_prog_bind_fix {W A B : Type} (h : Dlib.collaborators W) (p : prog A)
    (f : A → prog B) (w : W) :
  run h (prog_bind_fix f p) w =
  match result (run h p w) with
  | Ok a =>
      let r' := run h (f a) (world (run h p w)) in
      mk_ran (result r') (world r') (calls (run h p w) ++ calls r')
  | Raise e => mk_ran (Raise e) (world (run h p w)) (calls (run h p w))
  end.
Proof.
  revert w. induction p as [a|e|img k IH|img k IH|o k IH|a b c d k IH
                            |a b c d e k IH|a b c d k IH|a b c k IH]; intros w; simpl.
  - by destruct (run h (f a) w).
  - done.
  - apply IH.
  - apply IH.
  - destruct (Dlib.pyimage_to_dlib_image h o w) as [[x|e] w']; simpl; [|done].
    rewrite IH. by destruct (result (run h (k x) w')).
  - destruct (Dlib.images_and_nested_params_to_dlib h a b c d w) as [[x|e] w'];
      simpl; [|done].
    rewrite IH. by destruct (result (run h (k x) w')).
  - destruct (Dlib.train_shape_predictor_on_images h a b c d e w) as [[x|e'] w'];
      simpl; [|done].
    rewrite IH. by destruct (result (run h (k x) w')).
  - destruct (Dlib.test_shape_predictor_with_images h a b c d w) as [[x|e] w'];
      simpl; [|done].
    rewrite IH. by destruct (result (run h (k x) w')).
  - destruct (Dlib.predictor_call h a b c w) as [[x|e] w']; simpl; [|done].
    rewrite IH. by destruct (result (run h (k x) w')).
Qed.

Lemma run_bind {W A B : Type} (h : Dlib.collaborators W) (p : prog A)
    (f : A → prog B) (w : W) :
  run h (bind p f) w =
  match result (run h p w) with
  | Ok a =>
      let r' := run h (f a) (world (run h p w)) in
      mk_ran (result r') (world r') (calls (run h p w) ++ calls r')
  | Raise e => mk_ran (Raise e) (world (run h p w)) (calls (run h p w))
  end.
Proof. apply run_prog_bind_fix. Qed.

Lemma run_lift {W A : Type} (h : Dlib.collaborators W) (m : outcome A) (w : W) :
  run h (lift m) w = mk_ran m w [].
Proof. by destruct m. Qed.

(** ** The functions at work on the sample world *)

Example part_of_sample :
  full_obj_det_part sample_detection 1 = Ok (mk_point 2%R 1%R) ∧
  full_obj_det_part sample_detection 2
    = Raise (PyExc_IndexError "Index out of range") ∧
  full_obj_det_parts sample_detection
    = Ok [mk_point 1%R 1%R; mk_point 2%R 1%R].
Proof. repeat split; reflexivity. Qed.

Example init_rejects_non_point :
  full_obj_det_init (PyRectangle sample_box)
    (PyList [PyPoint (mk_point 1%R 1%R); PyInt 3])
  = Raise PyExc_TypeError.
Proof. reflexivity. Qed.

(** An int that a double holds is converted exactly; 2^53 + 1 lies between
    two doubles and goes to the even one, 2^53; 2^1024 is beyond the
    largest double. *)
Example extract_double_of_int :
  extract_double (PyInt 3) = Ok 3%R ∧
  extract_double (PyInt (-3)) = Ok (-3)%R ∧
  extract_double (PyInt 0) = Ok 0%R ∧
  extract_double (PyInt (2 ^ 53 + 1)) = Ok (IZR (2 ^ 53)) ∧
  extract_double (PyInt (2 ^ 1024)) = Raise PyExc_OverflowError.
Proof.
  unfold extract_double.
  replace (b64_of_Z 3)
    with (SpecFloat.S754_finite false 6755399441055744 (-51))
    by (vm_compute; reflexivity).
  replace (b64_of_Z (-3))
    with (SpecFloat.S754_finite true 6755399441055744 (-51))
    by (vm_compute; reflexivity).
  replace (b64_of_Z 0) with (SpecFloat.S754_zero false)
    by (vm_compute; reflexivity).
  replace (b64_of_Z (2 ^ 53 + 1))
    with (SpecFloat.S754_finite false 4503599627370496 1)
    by (vm_compute; reflexivity).
  replace (b64_of_Z (2 ^ 1024)) with (SpecFloat.S754_infinity false)
    by (vm_compute; reflexivity).
  cbn [b64_to_R].
  change (2 ^ 53)%Z with 9007199254740992%Z.
  repeat split; try reflexivity; f_equal; unfold powerRZ; simpl; lra.
Qed.

Example predictor_on_rgb_sample :
  calls (run sample_collaborators
           (run_predictor sample_model sample_rgb (PyRectangle sample_box)) [])
  = [Ev_predictor sample_model (numpy_rgb_image sample_rgb) sample_box].
Proof. reflexivity. Qed.

Example predictor_on_non_image :
  run sample_collaborators
    (run_predictor sample_model (PyInt 7) (PyRectangle sample_box)) []
  = mk_ran (Raise unsupported_image_error) [] [].
Proof. reflexivity. Qed.

Example train_on_sample :
  calls (run sample_collaborators
           (train_shape_predictor_on_images_py
              (PyList [sample_gray])
              (PyList [PyList [PyFullObjectDetection sample_detection]])
              "predictor.dat"
              (mk_shape_predictor_training_options
                 false 1 2 1 (1 / 10)%R 1 400 (1 / 10)%R 20 0%R "")) [])
  = [Ev_images_and_nested_params_to_dlib
       (PyList [sample_gray])
       (PyList [PyList [PyFullObjectDetection sample_detection]]);
     Ev_train_shape_predictor_on_images [[]] [[]] "predictor.dat"
       (mk_shape_predictor_training_options
          false 1 2 1 (1 / 10)%R 1 400 (1 / 10)%R 20 0%R "")].
Proof. reflexivity. Qed.

(** The inner length check comes after the conversion of that image. *)
Example test_inner_mismatch_on_sample :
  run sample_collaborators
    (test_shape_predictor_with_images_py
       (PyList [sample_gray])
       (PyList [PyList [PyFullObjectDetection sample_detection]])
       (PyList [PyList [PyFloat 1; PyFloat 1]])
       "predictor.dat") []
  = mk_ran (Raise scales_length_error) []
      [Ev_pyimage_to_dlib_image sample_gray].
Proof. reflexivity. Qed.

Example test_without_scales_on_sample :
  calls (run sample_collaborators
           (test_shape_predictor_with_images_no_scales_py
              (PyList [sample_gray])
              (PyList [PyList [PyFullObjectDetection sample_detection]])
              "predictor.dat")
           [("predictor.dat", serialize sample_model)])
  = [Ev_pyimage_to_dlib_image sample_gray;
     Ev_test_shape_predictor_with_images
       [[[mk_rgb_pixel 0 0 0]]] [[sample_detection]] [] "predictor.dat"].
Proof. reflexivity. Qed.

Example test_with_scales_on_sample :
  calls (run sample_collaborators
           (test_shape_predictor_with_images_py
              (PyList [sample_gray])
              (PyList [PyList [PyFullObjectDetection sample_detection]])
              (PyList [PyList [PyFloat 1]])
              "predictor.dat")
           [("predictor.dat", serialize sample_model)])
  = [Ev_pyimage_to_dlib_image sample_gray;
     Ev_test_shape_predictor_with_images
       [[[mk_rgb_pixel 0 0 0]]] [[sample_detection]] [[1%R]] "predictor.dat"].
Proof. reflexivity. Qed.

Example load_sample_model :
  load_shape_predictor read_file "predictor.dat"
    [("predictor.dat", serialize sample_model)] = Ok sample_model.
Proof. reflexivity. Qed.

Example sample_first_mismatch :
  first_mismatch_at sample_collaborators [sample_gray]
    [PyList [PyFullObjectDetection sample_detection]]
    [PyList [PyFloat 1; PyFloat 1]] 0.
Proof.
  split; [|split].
  - intros [|j] Hj; [|lia]. exists [sample_detection], sample_gray.
    repeat split. intros w. by eexists _, _.
  - intros j Hj. lia.
  - exists [PyFullObjectDetection sample_detection], [PyFloat 1; PyFloat 1].
    repeat split. simpl. lia.
Qed.

(** ** The accessors of full_object_detection *)

Lemma for_range_fill {A : Type} (src : list A) (dflt : A)
    (body : N → list A → outcome (list A)) :
  (∀ j x acc, src !! j = Some x → body (N.of_nat j) acc = Ok (<[j := x]> acc)) →
  ∀ n i, (i + n = length src)%nat →
    for_range n (N.of_nat i) body (take i src ++ replicate n dflt) = Ok src.
Proof.
  intros Hbody n. induction n as [|n IH]; intros i Hlen; simpl.
  - rewrite app_nil_r, take_ge by lia. done.
  - destruct (lookup_lt_is_Some_2 src i) as [x Hx]; [lia|].
    rewrite (Hbody _ _ _ Hx).
    replace (N.of_nat i + 1) with (N.of_nat (Datatypes.S i)) by lia.
    assert (Hi : length (take i src) = i) by (rewrite length_take; lia).
    replace (<[i:=x]> (take i src ++ dflt :: replicate n dflt))
      with (take (Datatypes.S i) src ++ replicate n dflt).
    + apply IH. lia.
    + rewrite (take_S_r _ _ _ Hx), <- app_assoc. simpl.
      rewrite insert_app_r_alt by lia. by rewrite Hi, Nat.sub_diag.
Qed.

Lemma full_obj_det_parts_eq (d : full_object_detection) :
  full_obj_det_parts d = Ok (parts d).
Proof.
  unfold full_obj_det_parts, num_parts. rewrite Nat2N.id.
  apply (for_range_fill (parts d) point_default _) with (i := 0%nat); [|done].
  intros j x acc Hx. unfold part. simpl. by rewrite !Nat2N.id, Hx.
Qed.

Lemma full_obj_det_part_in_range (d : full_object_detection) (idx : N) :
  idx < num_parts d →
  ∃ p, parts d !! N.to_nat idx = Some p ∧ full_obj_det_part d idx = Ok p.
Proof.
  intros Hlt. unfold num_parts in Hlt.
  destruct (lookup_lt_is_Some_2 (parts d) (N.to_nat idx)) as [p Hp]; [lia|].
  exists p. split; [done|]. unfold full_obj_det_part, part, num_parts.
  replace (idx <? 0) with false by (symmetry; apply N.ltb_ge; lia).
  replace (N.of_nat (length (parts d)) <=? idx) with false
    by (symmetry; apply N.leb_gt; lia).
  simpl. by rewrite Hp.
Qed.

(** C2.  [full_obj_det_part]: an index at or past [num_parts] raises
    IndexError and is never clamped to a valid one; an index below
    [num_parts] returns the point stored at that position. *)
Theorem full_obj_det_part_range (d : full_object_detection) (idx : N) :
  (¬ idx < full_obj_det_num_parts d ↔
     full_obj_det_part d idx = Raise (PyExc_IndexError "Index out of range")) ∧
  (idx < full_obj_det_num_parts d ↔
     ∃ p, parts d !! N.to_nat idx = Some p ∧ full_obj_det_part d idx = Ok p).
Proof.
  unfold full_obj_det_num_parts.
  assert (Hout : ¬ idx < num_parts d →
    full_obj_det_part d idx = Raise (PyExc_IndexError "Index out of range")).
  { intros Hge. unfold full_obj_det_part.
    replace (num_parts d <=? idx) with true by (symmetry; apply N.leb_le; lia).
    by rewrite orb_true_r. }
  split; split.
  - exact Hout.
  - intros Heq Hlt. destruct (full_obj_det_part_in_range d idx Hlt) as (p & _ & Hp).
    congruence.
  - apply full_obj_det_part_in_range.
  - intros (p & _ & Hp). destruct (decide (idx < num_parts d)) as [|Hge]; [done|].
    rewrite (Hout Hge) in Hp. discriminate.
Qed.

(** C10.  [full_obj_det_parts] returns a vector as long as [num_parts] whose
    entry [j] is [part(j)]; a detection built by [full_obj_det_init] from a
    rectangle and a list of points has as many parts as the list has points,
    has that rectangle, and holds the points in the order given. *)
Theorem full_obj_det_parts_init :
  (∀ d : full_object_detection, ∃ v,
     full_obj_det_parts d = Ok v ∧
     N.of_nat (length v) = full_obj_det_num_parts d ∧
     ∀ j, j < full_obj_det_num_parts d →
       ∃ p, v !! N.to_nat j = Some p ∧ full_obj_det_part d j = Ok p) ∧
  (∀ (r : rectangle) (ps : list point), ∃ d,
     full_obj_det_init (PyRectangle r) (PyList (map PyPoint ps)) = Ok d ∧
     full_obj_det_num_parts d = N.of_nat (length ps) ∧
     full_obj_det_get_rect d = r ∧
     full_obj_det_parts d = Ok ps ∧
     ∀ j p, ps !! j = Some p → full_obj_det_part d (N.of_nat j) = Ok p).
Proof.
  split.
  - intros d. exists (parts d). split; [apply full_obj_det_parts_eq|].
    split; [done|]. apply full_obj_det_part_in_range.
  - intros r ps. exists (mk_full_object_detection r ps).
    assert (Hinit : full_obj_det_init (PyRectangle r) (PyList (map PyPoint ps))
                    = Ok (mk_full_object_detection r ps)).
    { unfold full_obj_det_init. simpl. rewrite length_map, Nat2N.id.
      rewrite (for_range_fill ps point_default _) with (i := 0%nat); [done| |done].
      intros j x acc Hx. simpl.
      by rewrite Nat2N.id, list_lookup_fmap, Hx. }
    split; [exact Hinit|]. split; [done|]. split; [done|].
    split; [apply full_obj_det_parts_eq|].
    intros j p Hp.
    destruct (full_obj_det_part_in_range (mk_full_object_detection r ps) (N.of_nat j))
      as (q & Hq & Hpart).
    + unfold num_parts. simpl. apply lookup_lt_Some in Hp. lia.
    + simpl in Hq. rewrite Nat2N.id in Hq. congruence.
Qed.

(** ** Training: the length check comes first *)

(** C1.  [train_shape_predictor_on_images_py] on two lists of different
    lengths throws the error that names the mismatch; no image was
    converted, the trainer was not called, and the world (the output file
    included) is as it was. *)
Theorem train_length_mismatch_no_work {W : Type} (h : Dlib.collaborators W)
    (w : W) (images detections : list object)
    (predictor_output_filename : string)
    (options : shape_predictor_training_options) :
  length images ≠ length detections →
  run h (train_shape_predictor_on_images_py (PyList images) (PyList detections)
           predictor_output_filename options) w
  = mk_ran (Raise images_length_error) w [].
Proof.
  intros Hne. unfold train_shape_predictor_on_images_py. simpl.
  destruct (N.eqb_spec (N.of_nat (length images)) (N.of_nat (length detections)))
    as [Heq|_]; [lia|done].
Qed.

Lemma train_length_mismatch_no_work_witness :
  run sample_collaborators
    (train_shape_predictor_on_images_py
       (PyList [sample_gray])
       (PyList [PyList [PyFullObjectDetection sample_detection];
                PyList [PyFullObjectDetection sample_detection]])
       "predictor.dat"
       (mk_shape_predictor_training_options
          false 1 2 1 (1 / 10)%R 1 400 (1 / 10)%R 20 0%R ""))
    []
  = mk_ran (Raise images_length_error) [] [].
Proof. apply train_length_mismatch_no_work. simpl. lia. Defined.

(** ** The predictor call *)

Lemma run_predictor_unfold {W : Type} (h : Dlib.collaborators W) (w : W)
    (predictor : shape_predictor) (img : object) (box : rectangle) :
  run h (run_predictor predictor img (PyRectangle box)) w =
  if Dlib.is_gray_python_image h img
  then run h (predictor_call predictor (numpy_gray_image img) box) w
  else if Dlib.is_rgb_python_image h img
  then run h (predictor_call predictor (numpy_rgb_image img) box) w
  else mk_ran (Raise unsupported_image_error) w [].
Proof.
  unfold run_predictor. simpl.
  destruct (Dlib.is_gray_python_image h img); simpl.
  - by destruct (Dlib.predictor_call h predictor (numpy_gray_image img) box w)
      as [[x|e] w'].
  - destruct (Dlib.is_rgb_python_image h img); simpl; [|done].
    by destruct (Dlib.predictor_call h predictor (numpy_rgb_image img) box w)
      as [[x|e] w'].
Qed.

Lemma run_predictor_bad_rect {W : Type} (h : Dlib.collaborators W) (w : W)
    (predictor : shape_predictor) (img rect : object) :
  (∀ box, rect ≠ PyRectangle box) →
  ∃ e, run h (run_predictor predictor img rect) w = mk_ran (Raise e) w [].
Proof.
  intros Hrect. unfold run_predictor.
  destruct rect; simpl; eauto. by destruct (Hrect r).
Qed.

(** C5.  [run_predictor] on an image that is neither 8 bit grey nor RGB
    throws, with the message that names the unsupported type when the box is
    a rectangle; nothing was called, so the world, the loaded model in it,
    is untouched.  A grey image goes to the predictor through
    [numpy_gray_image], an RGB image through [numpy_rgb_image]. *)
Theorem run_predictor_by_image_type {W : Type} (h : Dlib.collaborators W)
    (w : W) (predictor : shape_predictor) (img rect : object) :
  (Dlib.is_gray_python_image h img = false ∧
   Dlib.is_rgb_python_image h img = false →
     (∃ e, run h (run_predictor predictor img rect) w = mk_ran (Raise e) w []) ∧
     (∀ box, rect = PyRectangle box →
        run h (run_predictor predictor img rect) w
        = mk_ran (Raise unsupported_image_error) w [])) ∧
  (∀ box, rect = PyRectangle box →
     (Dlib.is_gray_python_image h img = true →
        run h (run_predictor predictor img rect) w
        = run h (predictor_call predictor (numpy_gray_image img) box) w) ∧
     (Dlib.is_gray_python_image h img = false →
      Dlib.is_rgb_python_image h img = true →
        run h (run_predictor predictor img rect) w
        = run h (predictor_call predictor (numpy_rgb_image img) box) w)).
Proof.
  split.
  - intros [Hgray Hrgb].
    assert (Hbox : ∀ box, rect = PyRectangle box →
      run h (run_predictor predictor img rect) w
      = mk_ran (Raise unsupported_image_error) w []).
    { intros box ->. by rewrite run_predictor_unfold, Hgray, Hrgb. }
    split; [|exact Hbox].
    destruct rect; try (apply run_predictor_bad_rect; congruence).
    eexists. by apply (Hbox r).
  - intros box ->. split.
    + intros Hgray. by rewrite run_predictor_unfold, Hgray.
    + intros Hgray Hrgb. by rewrite run_predictor_unfold, Hgray, Hrgb.
Qed.

(** ** Normalizing and denormalizing shapes *)






(** ** Saving and loading a model *)

Section Roundtrip.
Context {A : Type} (put : A → list token) (get : parser A).

Lemma get_many_put (l : list A) (rest : list token) :
  (∀ x rest', x ∈ l → get (put x ++ rest') = Some (x, rest')) →
  get_many get (length l) (concat (map put l) ++ rest) = Some (l, rest).
Proof.
  induction l as [|x l IH]; intros Hget; simpl; [done|].
  rewrite <- app_assoc, Hget by left.
  rewrite IH; [done|]. intros y rest' Hy. apply Hget. by right.
Qed.

Lemma get_list_put (l : list A) (rest : list token) :
  (∀ x rest', x ∈ l → get (put x ++ rest') = Some (x, rest')) →
  get_list get (put_list put l ++ rest) = Some (l, rest).
Proof.
  intros Hget. unfold get_list, put_list. simpl.
  rewrite Nat2N.id. by apply get_many_put.
Qed.
End Roundtrip.

Lemma get_shape_put (s : shape) (rest : list token) :
  get_shape (put_shape s ++ rest) = Some (s, rest).
Proof. apply get_list_put. by intros [x y] rest' _. Qed.

Lemma tree_size_le_put (t : regression_tree) :
  (tree_size t ≤ length (put_tree t))%nat.
Proof.
  induction t as [c|f lo IHlo hi IHhi]; simpl; [lia|].
  rewrite !length_app. lia.
Qed.

Lemma get_tree_put (t : regression_tree) (fuel : nat) (rest : list token) :
  (tree_size t ≤ fuel)%nat →
  get_tree fuel (put_tree t ++ rest) = Some (t, rest).
Proof.
  revert fuel rest. induction t as [c|[i j th] lo IHlo hi IHhi];
    intros fuel rest Hfuel; (destruct fuel as [|fuel]; [simpl in Hfuel; lia|]).
  - cbn [get_tree put_tree app]. by rewrite get_shape_put.
  - cbn [tree_size] in Hfuel.
    cbn [get_tree put_tree put_split get_split app idx1 idx2 thresh].
    rewrite <- app_assoc, IHlo by lia. by rewrite IHhi by lia.
Qed.

Lemma get_stage_put (stage : cascade_stage) (rest : list token) :
  get_stage (put_stage stage ++ rest) = Some (stage, rest).
Proof.
  destruct stage as [locations trees]. unfold get_stage, put_stage.
  cbn [pool forest].
  rewrite <- app_assoc, (get_list_put put_pool_location).
  - rewrite (get_list_put put_tree); [done|].
    intros t rest' _. apply get_tree_put.
    rewrite length_app. pose proof (tree_size_le_put t). lia.
  - by intros [a [x y]] rest' _.
Qed.

Lemma deserialize_serialize (model : shape_predictor) :
  deserialize (serialize model) = Ok model.
Proof.
  destruct model as [initial stages]. unfold deserialize, serialize.
  cbn [initial_shape cascade]. rewrite N.eqb_refl, get_shape_put.
  rewrite <- (app_nil_r (put_list put_stage stages)).
  rewrite (get_list_put put_stage); [done|].
  intros stage rest' _. apply get_stage_put.
Qed.

(** C7.  Deserializing a serialized model succeeds, and the model it gives
    predicts, for every image and box (and every pixel source), exactly what
    the original predicts. *)
Theorem deserialize_serialize_predict (model : shape_predictor) :
  ∃ model', deserialize (serialize model) = Ok model' ∧
    ∀ (intensity : pixel_source) (img : image_view) (box : rectangle),
      predict intensity model' img box = predict intensity model img box.
Proof. exists model. split; [apply deserialize_serialize|done]. Qed.

(** ** The copy loop of the test function *)

(** One pass of the loop, spelled out: what it returns or throws, the world
    after it and the one call it can make. *)
Lemma run_test_copy_image {W : Type} (h : Dlib.collaborators W)
    (pyimages pydetections pyscales : object) (num_scales i : N)
    (images : list array2d_rgb) (detections : list (list full_object_detection))
    (scales : list (list double)) (w : W) :
  run h (test_copy_image pyimages pydetections pyscales num_scales i
           (images, detections, scales)) w =
  match test_copy_head pyimages pydetections i detections with
  | Raise e => mk_ran (Raise e) w []
  | Ok (num_boxes, detections', pyimage) =>
      match Dlib.pyimage_to_dlib_image h pyimage w with
      | (Raise e, w') => mk_ran (Raise e) w' [Ev_pyimage_to_dlib_image pyimage]
      | (Ok image, w') =>
          mk_ran
            (scales' <- (if 0 <? num_scales
                         then check_and_copy_scales pyscales i num_boxes scales
                         else ret scales);;
             ret (<[N.to_nat i := image]> images, detections', scales'))%outcome
            w' [Ev_pyimage_to_dlib_image pyimage]
      end
  end.
Proof.
  unfold test_copy_image, test_copy_head.
  destruct (getitem pydetections i) as [row|e]; [|reflexivity].
  cbn [bind outcome_monad prog_monad lift prog_bind_fix].
  destruct (len row) as [num_boxes|e]; [|reflexivity].
  cbn [bind outcome_monad prog_monad lift prog_bind_fix].
  destruct (copy_boxes pydetections i num_boxes detections) as [detections'|e];
    [|reflexivity].
  cbn [bind outcome_monad prog_monad lift prog_bind_fix].
  destruct (getitem pyimages i) as [pyimage|e]; [|reflexivity].
  cbn [bind outcome_monad prog_monad lift prog_bind_fix pyimage_to_dlib_image
       run ret].
  unfold after_call.
  destruct (Dlib.pyimage_to_dlib_image h pyimage w) as [[image|e] w'];
    [|reflexivity].
  destruct (if 0 <? num_scales
            then check_and_copy_scales pyscales i num_boxes scales
            else Ok scales); reflexivity.
Qed.

Lemma test_copy_image_calls {W : Type} (h : Dlib.collaborators W)
    (pyimages pydetections pyscales : object) (num_scales i : N)
    (st : test_data) (w : W) :
  Forall (fun ev => is_inference ev = false)
    (calls (run h (test_copy_image pyimages pydetections pyscales num_scales i st) w)).
Proof.
  destruct st as [[images detections] scales]. rewrite run_test_copy_image.
  destruct (test_copy_head pyimages pydetections i detections)
    as [[[nb d'] pyimage]|e]; [|by constructor].
  destruct (Dlib.pyimage_to_dlib_image h pyimage w) as [[image|e] w'];
    by repeat constructor.
Qed.

Lemma test_copy_loop_calls {W : Type} (h : Dlib.collaborators W)
    (pyimages pydetections pyscales : object) (num_scales : N)
    (n : nat) (i : N) (st : test_data) (w : W) :
  Forall (fun ev => is_inference ev = false)
    (calls (run h (for_range n i
                     (test_copy_image pyimages pydetections pyscales num_scales)
                     st) w)).
Proof.
  revert i st w. induction n as [|n IH]; intros i st w; [by constructor|].
  cbn [for_range]. rewrite run_bind.
  pose proof (test_copy_image_calls h pyimages pydetections pyscales
                num_scales i st w) as Hpass.
  destruct (result (run h (test_copy_image _ _ _ _ i st) w)) as [st'|e];
    [|exact Hpass].
  cbn. apply Forall_app. split; [exact Hpass|apply IH].
Qed.

Lemma test_copy_head_inv (pyimages : object) (pydetections : list object)
    (i nb : N) (detections detections' : list (list full_object_detection))
    (pyimage : object) :
  test_copy_head pyimages (PyList pydetections) i detections
    = Ok (nb, detections', pyimage) →
  ∃ ds, pydetections !! N.to_nat i = Some (PyList ds) ∧
        nb = N.of_nat (length ds) ∧
        copy_boxes (PyList pydetections) i nb detections = Ok detections' ∧
        getitem pyimages i = Ok pyimage.
Proof.
  unfold test_copy_head. cbn [getitem].
  destruct (pydetections !! N.to_nat i) as [row|]; [|done].
  cbn [bind outcome_monad].
  destruct row as [| | |ds| | | |]; try done. cbn [len].
  destruct (copy_boxes _ i (N.of_nat (length ds)) detections) as [d1|] eqn:Hboxes;
    [|done].
  destruct (getitem pyimages i) as [o|]; [|done].
  cbn. intros [= <- <- <-]. by exists ds.
Qed.

(** A pass over an image whose list of scales is not as long as its list
    of boxes throws. *)
Lemma test_copy_image_mismatch {W : Type} (h : Dlib.collaborators W)
    (pyimages : object) (detections scales : list object)
    (num_scales i : N) (ds ss : list object) (st : test_data) (w : W) :
  0 < num_scales →
  detections !! N.to_nat i = Some (PyList ds) →
  scales !! N.to_nat i = Some (PyList ss) →
  length ds ≠ length ss →
  ∃ e, result (run h (test_copy_image pyimages (PyList detections)
                        (PyList scales) num_scales i st) w) = Raise e.
Proof.
  intros Hpos Hds Hss Hne. destruct st as [[images dets] scs].
  rewrite run_test_copy_image.
  destruct (test_copy_head pyimages (PyList detections) i dets)
    as [[[nb d'] pyimage]|e] eqn:Hhead; [|by eexists].
  destruct (Dlib.pyimage_to_dlib_image h pyimage w) as [[image|e] w'];
    [|by eexists].
  cbn [result].
  replace (0 <? num_scales) with true by (symmetry; by apply N.ltb_lt).
  apply test_copy_head_inv in Hhead as (ds' & Hds' & -> & _).
  assert (ds' = ds) as -> by congruence.
  unfold check_and_copy_scales. cbn [getitem]. rewrite Hss.
  cbn [bind outcome_monad len].
  replace (N.of_nat (length ds) =? N.of_nat (length ss)) with false;
    [by eexists|].
  symmetry. apply N.eqb_neq. lia.
Qed.

Lemma test_copy_loop_mismatch {W : Type} (h : Dlib.collaborators W)
    (pyimages : object) (detections scales : list object)
    (num_scales : N) (k : nat) (ds ss : list object) :
  0 < num_scales →
  detections !! k = Some (PyList ds) →
  scales !! k = Some (PyList ss) →
  length ds ≠ length ss →
  ∀ (n : nat) (i : N) (st : test_data) (w : W),
    (N.to_nat i ≤ k < N.to_nat i + n)%nat →
    ∃ e, result (run h (for_range n i
                          (test_copy_image pyimages (PyList detections)
                             (PyList scales) num_scales) st) w) = Raise e.
Proof.
  intros Hpos Hds Hss Hne n. induction n as [|n IH]; intros i st w Hk; [lia|].
  cbn [for_range]. rewrite run_bind.
  destruct (result (run h (test_copy_image _ _ _ _ i st) w)) as [st'|e] eqn:Hpass;
    [|by eexists].
  destruct (decide (k = N.to_nat i)) as [->|Hki].
  - destruct (test_copy_image_mismatch h pyimages detections scales num_scales
                i ds ss st w Hpos Hds Hss Hne) as [e He].
    congruence.
  - cbn. apply IH. lia.
Qed.

Lemma for_range_ok {S : Type} (body : N → S → outcome S) (m : nat) :
  (∀ j s, (j < m)%nat → ∃ s', body (N.of_nat j) s = Ok s') →
  ∀ n j s, (j + n = m)%nat → ∃ s', for_range n (N.of_nat j) body s = Ok s'.
Proof.
  intros Hbody n. induction n as [|n IH]; intros j s Hm; cbn; [by eexists|].
  destruct (Hbody j s ltac:(lia)) as [s1 ->].
  replace (N.of_nat j + 1) with (N.of_nat (Datatypes.S j)) by lia.
  apply IH. lia.
Qed.

Lemma copy_boxes_typed (pydetections : list object) (i : N)
    (ds : list full_object_detection)
    (detections : list (list full_object_detection)) :
  pydetections !! N.to_nat i = Some (PyList (map PyFullObjectDetection ds)) →
  ∃ detections',
    copy_boxes (PyList pydetections) i (N.of_nat (length ds)) detections
    = Ok detections'.
Proof.
  intros Hrow. unfold copy_boxes. rewrite Nat2N.id.
  apply (for_range_ok _ (length ds)) with (j := 0%nat); [|done].
  intros j acc Hj. cbn [getitem]. rewrite Hrow. cbn.
  rewrite Nat2N.id, list_lookup_fmap.
  destruct (lookup_lt_is_Some_2 ds j Hj) as [d ->]. cbn. by eexists.
Qed.

Lemma copy_scales_typed (pyscales : list object) (i : N) (ss : list double)
    (scales : list (list double)) :
  pyscales !! N.to_nat i = Some (PyList (map PyFloat ss)) →
  ∃ scales',
    copy_scales (PyList pyscales) i (N.of_nat (length ss)) scales = Ok scales'.
Proof.
  intros Hrow. unfold copy_scales. rewrite Nat2N.id.
  apply (for_range_ok _ (length ss)) with (j := 0%nat); [|done].
  intros j acc Hj. cbn [getitem]. rewrite Hrow. cbn.
  rewrite Nat2N.id, list_lookup_fmap.
  destruct (lookup_lt_is_Some_2 ss j Hj) as [d ->]. cbn. by eexists.
Qed.

Lemma test_copy_head_typed (images pydetections : list object) (i : N)
    (ds : list full_object_detection) (img : object)
    (detections : list (list full_object_detection)) :
  pydetections !! N.to_nat i = Some (PyList (map PyFullObjectDetection ds)) →
  images !! N.to_nat i = Some img →
  ∃ detections',
    test_copy_head (PyList images) (PyList pydetections) i detections
    = Ok (N.of_nat (length ds), detections', img).
Proof.
  intros Hrow Himg. unfold test_copy_head. cbn [getitem]. rewrite Hrow, Himg.
  cbn [bind outcome_monad len]. rewrite length_map.
  destruct (copy_boxes_typed pydetections i ds detections Hrow) as [d' ->].
  by exists d'.
Qed.

(** Below the first mismatch a pass succeeds; at the first mismatch it
    throws the error that names the scales. *)
Lemma test_copy_image_before_mismatch {W : Type} (h : Dlib.collaborators W)
    (images detections scales : list object) (num_scales : N) (k j : nat)
    (st : test_data) (w : W) :
  first_mismatch_at h images detections scales k →
  (j < k)%nat →
  ∃ st', result (run h (test_copy_image (PyList images) (PyList detections)
                          (PyList scales) num_scales (N.of_nat j) st) w) = Ok st'.
Proof.
  intros (Htyped & Hbelow & _) Hj. destruct st as [[imgs dets] scs].
  destruct (Htyped j ltac:(lia)) as (ds & img & Hds & Himg & Hconv).
  destruct (Hbelow j Hj) as (ds' & ss & Hds' & Hss & Hlen).
  rewrite Hds in Hds'. injection Hds' as <-. rewrite length_map in Hlen.
  rewrite run_test_copy_image.
  destruct (test_copy_head_typed images detections (N.of_nat j) ds img dets)
    as [d' ->]; [by rewrite Nat2N.id..|].
  destruct (Hconv w) as (a & w' & ->). cbn [result].
  destruct (0 <? num_scales); [|by eexists].
  unfold check_and_copy_scales. cbn [getitem]. rewrite Nat2N.id, Hss.
  cbn [bind outcome_monad len]. rewrite length_map, Hlen, N.eqb_refl. cbn [negb].
  destruct (copy_scales_typed scales (N.of_nat j) ss scs) as [s' ->];
    [by rewrite Nat2N.id|].
  by eexists.
Qed.

Lemma test_copy_image_at_mismatch {W : Type} (h : Dlib.collaborators W)
    (images detections scales : list object) (num_scales : N) (k : nat)
    (st : test_data) (w : W) :
  0 < num_scales →
  first_mismatch_at h images detections scales k →
  result (run h (test_copy_image (PyList images) (PyList detections)
                   (PyList scales) num_scales (N.of_nat k) st) w)
  = Raise scales_length_error.
Proof.
  intros Hpos (Htyped & _ & (ds' & ss & Hds' & Hss & Hne)).
  destruct st as [[imgs dets] scs].
  destruct (Htyped k ltac:(lia)) as (ds & img & Hds & Himg & Hconv).
  rewrite Hds in Hds'. injection Hds' as <-. rewrite length_map in Hne.
  rewrite run_test_copy_image.
  destruct (test_copy_head_typed images detections (N.of_nat k) ds img dets)
    as [d' ->]; [by rewrite Nat2N.id..|].
  destruct (Hconv w) as (a & w' & ->). cbn [result].
  replace (0 <? num_scales) with true by (symmetry; by apply N.ltb_lt).
  unfold check_and_copy_scales. cbn [getitem]. rewrite Nat2N.id, Hss.
  cbn [bind outcome_monad len].
  replace (N.of_nat (length ds) =? N.of_nat (length ss)) with false; [done|].
  symmetry. apply N.eqb_neq. lia.
Qed.

Lemma test_copy_loop_first_mismatch {W : Type} (h : Dlib.collaborators W)
    (images detections scales : list object) (num_scales : N) (k : nat) :
  0 < num_scales →
  first_mismatch_at h images detections scales k →
  ∀ (n i : nat) (st : test_data) (w : W),
    (i ≤ k < i + n)%nat →
    result (run h (for_range n (N.of_nat i)
                     (test_copy_image (PyList images) (PyList detections)
                        (PyList scales) num_scales) st) w)
    = Raise scales_length_error.
Proof.
  intros Hpos Hfirst n. induction n as [|n IH]; intros i st w Hk; [lia|].
  cbn [for_range]. rewrite run_bind.
  destruct (decide (i = k)) as [->|Hne].
  - by rewrite (test_copy_image_at_mismatch h images detections scales
                  num_scales k st w Hpos Hfirst).
  - destruct (test_copy_image_before_mismatch h images detections scales
                num_scales k i st w Hfirst ltac:(lia)) as [st' ->].
    cbn [result].
    replace (N.of_nat i + 1) with (N.of_nat (Datatypes.S i)) by lia.
    apply IH. lia.
Qed.

(** ** Testing: mismatched scales are rejected before inference *)

Lemma test_first_mismatch_error {W : Type} (h : Dlib.collaborators W) (w : W)
    (images detections scales : list object) (predictor_filename : string)
    (k : nat) :
  length images = length detections →
  length scales = length images →
  first_mismatch_at h images detections scales k →
  result (run h (test_shape_predictor_with_images_py (PyList images)
                   (PyList detections) (PyList scales) predictor_filename) w)
  = Raise scales_length_error.
Proof.
  intros Hlen Hsc Hfirst.
  assert (Hk : (k < length images)%nat).
  { destruct Hfirst as (Htyped & _).
    destruct (Htyped k ltac:(lia)) as (ds & img & _ & Himg & _).
    by apply lookup_lt_Some in Himg. }
  assert (Hpos : 0 < N.of_nat (length scales)) by lia.
  unfold test_shape_predictor_with_images_py.
  cbn [len lift bind prog_monad prog_bind_fix].
  rewrite Hsc, <- Hlen, N.eqb_refl. cbn [negb andb].
  rewrite Hsc in Hpos.
  replace (0 <? N.of_nat (length images)) with true
    by (symmetry; by apply N.ltb_lt).
  cbn [negb andb]. rewrite run_prog_bind_fix.
  change 0 with (N.of_nat 0) at 1.
  by rewrite (test_copy_loop_first_mismatch h images detections scales
                (N.of_nat (length images)) k Hpos Hfirst) by lia.
Qed.

(** C3.  [test_shape_predictor_with_images_py] with a non-empty list of
    scales whose length differs from the number of images, or with an image
    whose list of scales is not as long as its list of boxes, throws, and no
    call of the run is an inference call.  When the list of scales itself
    has the wrong length (images and detections agreeing), the error is the
    one that names the scales and nothing at all was called.  When the
    mismatch is inside, at image [k], and the input is well typed as far as
    [k], the error is again the one that names the scales. *)
Theorem test_scales_mismatch_rejected {W : Type} (h : Dlib.collaborators W)
    (w : W) (images detections scales : list object)
    (predictor_filename : string) :
  scales ≠ [] →
  (length scales ≠ length images ∨
   ∃ (i : nat) (ds ss : list object),
     (i < length images)%nat ∧
     detections !! i = Some (PyList ds) ∧
     scales !! i = Some (PyList ss) ∧
     length ds ≠ length ss) →
  (∃ e, result (run h (test_shape_predictor_with_images_py (PyList images)
                         (PyList detections) (PyList scales)
                         predictor_filename) w) = Raise e) ∧
  Forall (fun ev => is_inference ev = false)
    (calls (run h (test_shape_predictor_with_images_py (PyList images)
                     (PyList detections) (PyList scales)
                     predictor_filename) w)) ∧
  (length images = length detections → length scales ≠ length images →
   run h (test_shape_predictor_with_images_py (PyList images)
            (PyList detections) (PyList scales) predictor_filename) w
   = mk_ran (Raise scales_length_error) w []) ∧
  (∀ k, length images = length detections → length scales = length images →
        first_mismatch_at h images detections scales k →
   result (run h (test_shape_predictor_with_images_py (PyList images)
                    (PyList detections) (PyList scales) predictor_filename) w)
   = Raise scales_length_error).
Proof.
  intros Hnonempty Hmismatch.
  cut ((∃ e, result (run h (test_shape_predictor_with_images_py (PyList images)
                              (PyList detections) (PyList scales)
                              predictor_filename) w) = Raise e) ∧
       Forall (fun ev => is_inference ev = false)
         (calls (run h (test_shape_predictor_with_images_py (PyList images)
                          (PyList detections) (PyList scales)
                          predictor_filename) w)) ∧
       (length images = length detections → length scales ≠ length images →
        run h (test_shape_predictor_with_images_py (PyList images)
                 (PyList detections) (PyList scales) predictor_filename) w
        = mk_ran (Raise scales_length_error) w [])).
  { intros (H1 & H2 & H3). repeat (split; [assumption|]).
    intros k. apply test_first_mismatch_error. }
  assert (Hpos : 0 < N.of_nat (length scales)) by (destruct scales; [done|cbn; lia]).
  unfold test_shape_predictor_with_images_py.
  cbn [len lift bind prog_monad prog_bind_fix].
  destruct (N.eqb_spec (N.of_nat (length images)) (N.of_nat (length detections)))
    as [Hlen|Hlen]; cbn [negb].
  2:{ split; [by eexists|]. split; [by constructor|]. intros; lia. }
  replace (0 <? N.of_nat (length scales)) with true
    by (symmetry; by apply N.ltb_lt).
  destruct (N.eqb_spec (N.of_nat (length scales)) (N.of_nat (length images)))
    as [Hsc|Hsc]; cbn [negb andb].
  2:{ split; [by eexists|]. split; [by constructor|]. done. }
  destruct Hmismatch as [Hout|(i & ds & ss & Hi & Hds & Hss & Hne)]; [lia|].
  rewrite run_prog_bind_fix.
  match goal with
  | |- context [run h (for_range ?n ?j ?body ?st) w] =>
      assert (∃ e, result (run h (for_range n j body st) w) = Raise e) as [e He]
        by (apply (test_copy_loop_mismatch h (PyList images) detections scales
                     (N.of_nat (length scales)) i ds ss Hpos Hds Hss Hne n j st w);
            lia)
  end.
  rewrite He. cbn [result calls].
  split; [by eexists|]. split; [apply test_copy_loop_calls|]. intros; lia.
Qed.

Lemma test_scales_mismatch_rejected_witness :
  (∃ e, result (run sample_collaborators
                  (test_shape_predictor_with_images_py
                     (PyList [sample_gray])
                     (PyList [PyList [PyFullObjectDetection sample_detection]])
                     (PyList [PyList [PyFloat 1; PyFloat 1]])
                     "predictor.dat") []) = Raise e) ∧
  Forall (fun ev => is_inference ev = false)
    (calls (run sample_collaborators
              (test_shape_predictor_with_images_py
                 (PyList [sample_gray])
                 (PyList [PyList [PyFullObjectDetection sample_detection]])
                 (PyList [PyList [PyFloat 1; PyFloat 1]])
                 "predictor.dat") [])) ∧
  (length [sample_gray]
     = length [PyList [PyFullObjectDetection sample_detection]] →
   length [PyList [PyFloat 1; PyFloat 1]] ≠ length [sample_gray] →
   run sample_collaborators
     (test_shape_predictor_with_images_py
        (PyList [sample_gray])
        (PyList [PyList [PyFullObjectDetection sample_detection]])
        (PyList [PyList [PyFloat 1; PyFloat 1]])
        "predictor.dat") []
   = mk_ran (Raise scales_length_error) [] []) ∧
  (∀ k,
     length [sample_gray]
       = length [PyList [PyFullObjectDetection sample_detection]] →
     length [PyList [PyFloat 1; PyFloat 1]] = length [sample_gray] →
     first_mismatch_at sample_collaborators [sample_gray]
       [PyList [PyFullObjectDetection sample_detection]]
       [PyList [PyFloat 1; PyFloat 1]] k →
     result (run sample_collaborators
               (test_shape_predictor_with_images_py
                  (PyList [sample_gray])
                  (PyList [PyList [PyFullObjectDetection sample_detection]])
                  (PyList [PyList [PyFloat 1; PyFloat 1]])
                  "predictor.dat") [])
     = Raise scales_length_error).
Proof.
  apply test_scales_mismatch_rejected; [done|].
  right. exists 0%nat, [PyFullObjectDetection sample_detection],
    [PyFloat 1; PyFloat 1].
  repeat split; simpl; lia.
Defined.

(** ** Testing without scales and with scales that are all one *)

Section Push.
Context {A : Type} (k : nat).

(** A loop whose every pass appends one element to row [k] appends, in
    all, as many elements as it has passes. *)
Lemma for_range_push (body : N → list (list A) → outcome (list (list A))) :
  (∀ j acc acc', body j acc = Ok acc' →
     ∃ x, acc' = alter (fun v => v ++ [x]) k acc) →
  ∀ n j acc acc', for_range n j body acc = Ok acc' →
    ∃ xs, length xs = n ∧ acc' = alter (fun v => v ++ xs) k acc.
Proof.
  intros Hbody n. induction n as [|n IH]; intros j acc acc'; cbn.
  - intros [= <-]. exists []. split; [done|].
    symmetry. apply list_alter_id. intros v. apply app_nil_r.
  - destruct (body j acc) as [acc1|e] eqn:Hpass; [|done].
    destruct (Hbody _ _ _ Hpass) as [x ->]. intros Hrest.
    destruct (IH _ _ _ Hrest) as (xs & Hlen & ->).
    exists (x :: xs). split; [cbn; lia|].
    rewrite list_alter_alter_eq. apply list_alter_ext; [|done].
    intros v _. cbn. by rewrite <- app_assoc.
Qed.

End Push.

Lemma copy_boxes_ok (pydetections : object) (i num_boxes : N)
    (detections detections' : list (list full_object_detection)) :
  copy_boxes pydetections i num_boxes detections = Ok detections' →
  ∃ xs, length xs = N.to_nat num_boxes ∧
        detections' = alter (fun v => v ++ xs) (N.to_nat i) detections.
Proof.
  apply for_range_push. intros j acc acc'.
  destruct (getitem pydetections i) as [row|]; [|done]. cbn.
  destruct (getitem row j) as [o|]; [|done]. cbn.
  destruct (extract_full_object_detection o) as [d|]; [|done]. cbn.
  intros [= <-]. by exists d.
Qed.











(** * Further properties of the binding functions *)

(** ** Building a detection *)

Lemma for_range_raises {S : Type} (body : N → S → outcome S) (k : nat) :
  (∀ s, ∃ e, body (N.of_nat k) s = Raise e) →
  ∀ n i s, (i ≤ k < i + n)%nat →
    ∃ e, for_range n (N.of_nat i) body s = Raise e.
Proof.
  intros Hk n. induction n as [|n IH]; intros i s Hi; [lia|]. cbn.
  destruct (body (N.of_nat i) s) as [s'|e] eqn:Hpass; [|by eexists].
  destruct (decide (i = k)) as [->|Hne].
  - destruct (Hk s) as [e He]. congruence.
  - replace (N.of_nat i + 1) with (N.of_nat (Datatypes.S i)) by lia.
    apply IH. lia.
Qed.

Lemma points_or_not (items : list object) :
  (∃ ps, items = map PyPoint ps) ∨
  (∃ j o, items !! j = Some o ∧ ∀ p, o ≠ PyPoint p).
Proof.
  induction items as [|o items [[ps ->]|(j & o' & Hj & Ho')]].
  - left. by exists [].
  - destruct o as [| | | | | |p|];
      try (right; exists 0%nat; eexists; split; [done|congruence]).
    left. by exists (p :: ps).
  - right. by exists (Datatypes.S j), o'.
Qed.

Lemma full_obj_det_init_points (r : rectangle) (ps : list point) :
  full_obj_det_init (PyRectangle r) (PyList (map PyPoint ps))
  = Ok (mk_full_object_detection r ps).
Proof.
  unfold full_obj_det_init. simpl. rewrite length_map, Nat2N.id.
  rewrite (for_range_fill ps point_default _) with (i := 0%nat); [done| |done].
  intros j x acc Hx. simpl. by rewrite Nat2N.id, list_lookup_fmap, Hx.
Qed.

(** X1.  [full_obj_det_init] on a Python list as its second argument
    returns a detection exactly when the first argument is a rectangle and
    every element of the list is a point, and the detection then holds that
    rectangle and those points in the order of the list: one element that
    is not a point makes it throw, no default point is ever left in. *)
Theorem full_obj_det_init_list_ok_iff (pyrect : object) (items : list object)
    (d : full_object_detection) :
  full_obj_det_init pyrect (PyList items) = Ok d ↔
  pyrect = PyRectangle (rect d) ∧ items = map PyPoint (parts d).
Proof.
  split.
  - intros Hinit.
    destruct pyrect as [| | | | |r| |]; try done.
    destruct (points_or_not items) as [[ps ->]|(j & o & Hj & Ho)].
    + rewrite full_obj_det_init_points in Hinit. by injection Hinit as <-.
    + exfalso. unfold full_obj_det_init in Hinit. cbn in Hinit.
      rewrite Nat2N.id in Hinit.
      match type of Hinit with
      | context [for_range ?m 0 ?body ?s0] =>
          assert (∃ e, for_range m (N.of_nat 0) body s0 = Raise e) as [e He]
      end.
      { apply (for_range_raises _ j).
        - intros s. cbn. rewrite Nat2N.id, Hj.
          destruct o; try (by eexists). by destruct (Ho p).
        - apply lookup_lt_Some in Hj. lia. }
      change (N.of_nat 0) with 0 in He. by rewrite He in Hinit.
  - intros [-> ->]. destruct d as [r ps]. apply full_obj_det_init_points.
Qed.

(** X2.  Taking a detection apart with [rect] and [parts()] and building it
    again with [full_obj_det_init] gives the detection back. *)
Theorem full_obj_det_init_of_parts (d : full_object_detection) :
  ∃ v, full_obj_det_parts d = Ok v ∧
       full_obj_det_init (PyRectangle (full_obj_det_get_rect d))
         (PyList (map PyPoint v)) = Ok d.
Proof.
  exists (parts d). split; [apply full_obj_det_parts_eq|].
  destruct d as [r ps]. apply full_obj_det_init_points.
Qed.

(** ** Training: conversion, then the trainer *)

(** X3.  [train_shape_predictor_on_images_py] on lists of equal length
    hands the converter one empty image and one empty list of detections
    per image.  If the converter throws, the error is passed on and the
    trainer is not called.  Otherwise the trainer is called once, with an
    empty dataset name, what the converter returned, and the file name and
    options as given; its result and world are those of the run. *)
Theorem train_converts_then_trains {W : Type} (h : Dlib.collaborators W)
    (w : W) (images detections : list object)
    (predictor_output_filename : string)
    (options : shape_predictor_training_options) :
  length images = length detections →
  (∀ e w1,
     Dlib.images_and_nested_params_to_dlib h (PyList images) (PyList detections)
       (replicate (length images) []) (replicate (length images) []) w
     = (Raise e, w1) →
     run h (train_shape_predictor_on_images_py (PyList images)
              (PyList detections) predictor_output_filename options) w
     = mk_ran (Raise e) w1
         [Ev_images_and_nested_params_to_dlib (PyList images) (PyList detections)]) ∧
  (∀ imgs dets w1,
     Dlib.images_and_nested_params_to_dlib h (PyList images) (PyList detections)
       (replicate (length images) []) (replicate (length images) []) w
     = (Ok (imgs, dets), w1) →
     run h (train_shape_predictor_on_images_py (PyList images)
              (PyList detections) predictor_output_filename options) w
     = mk_ran
         (Dlib.train_shape_predictor_on_images h "" imgs dets
            predictor_output_filename options w1).1
         (Dlib.train_shape_predictor_on_images h "" imgs dets
            predictor_output_filename options w1).2
         [Ev_images_and_nested_params_to_dlib (PyList images) (PyList detections);
          Ev_train_shape_predictor_on_images imgs dets
            predictor_output_filename options]).
Proof.
  intros Hlen. unfold train_shape_predictor_on_images_py.
  cbn [len lift bind prog_monad prog_bind_fix].
  rewrite <- Hlen, N.eqb_refl, Nat2N.id. cbn [negb].
  split.
  - intros e w1 Hconv. cbn. by rewrite Hconv.
  - intros imgs dets w1 Hconv. cbn. rewrite Hconv. cbn.
    by destruct (Dlib.train_shape_predictor_on_images h "" imgs dets
                   predictor_output_filename options w1) as [[[]|e] w2].
Qed.

Lemma train_converts_then_trains_witness :
  (∀ e w1,
     Dlib.images_and_nested_params_to_dlib sample_collaborators
       (PyList [sample_gray])
       (PyList [PyList [PyFullObjectDetection sample_detection]])
       (replicate (length [sample_gray]) [])
       (replicate (length [sample_gray]) []) []
     = (Raise e, w1) →
     run sample_collaborators
       (train_shape_predictor_on_images_py (PyList [sample_gray])
          (PyList [PyList [PyFullObjectDetection sample_detection]])
          "predictor.dat"
          (mk_shape_predictor_training_options
             false 1 2 1 (1 / 10)%R 1 400 (1 / 10)%R 20 0%R "")) []
     = mk_ran (Raise e) w1
         [Ev_images_and_nested_params_to_dlib (PyList [sample_gray])
            (PyList [PyList [PyFullObjectDetection sample_detection]])]) ∧
  (∀ imgs dets w1,
     Dlib.images_and_nested_params_to_dlib sample_collaborators
       (PyList [sample_gray])
       (PyList [PyList [PyFullObjectDetection sample_detection]])
       (replicate (length [sample_gray]) [])
       (replicate (length [sample_gray]) []) []
     = (Ok (imgs, dets), w1) →
     run sample_collaborators
       (train_shape_predictor_on_images_py (PyList [sample_gray])
          (PyList [PyList [PyFullObjectDetection sample_detection]])
          "predictor.dat"
          (mk_shape_predictor_training_options
             false 1 2 1 (1 / 10)%R 1 400 (1 / 10)%R 20 0%R "")) []
     = mk_ran
         (Dlib.train_shape_predictor_on_images sample_collaborators "" imgs dets
            "predictor.dat"
            (mk_shape_predictor_training_options
               false 1 2 1 (1 / 10)%R 1 400 (1 / 10)%R 20 0%R "") w1).1
         (Dlib.train_shape_predictor_on_images sample_collaborators "" imgs dets
            "predictor.dat"
            (mk_shape_predictor_training_options
               false 1 2 1 (1 / 10)%R 1 400 (1 / 10)%R 20 0%R "") w1).2
         [Ev_images_and_nested_params_to_dlib (PyList [sample_gray])
            (PyList [PyList [PyFullObjectDetection sample_detection]]);
          Ev_train_shape_predictor_on_images imgs dets "predictor.dat"
            (mk_shape_predictor_training_options
               false 1 2 1 (1 / 10)%R 1 400 (1 / 10)%R 20 0%R "")]).
Proof. apply train_converts_then_trains. reflexivity. Defined.

(** X4.  [train_shape_predictor_on_images_py] on two Python lists calls
    into dlib exactly when the lists have the same length: with different
    lengths nothing is called, with equal lengths the converter is called
    whatever the lists hold. *)
Theorem train_calls_iff_equal_lengths {W : Type} (h : Dlib.collaborators W)
    (w : W) (images detections : list object)
    (predictor_output_filename : string)
    (options : shape_predictor_training_options) :
  calls (run h (train_shape_predictor_on_images_py (PyList images)
                  (PyList detections) predictor_output_filename options) w) ≠ []
  ↔ length images = length detections.
Proof.
  unfold train_shape_predictor_on_images_py.
  cbn [len lift bind prog_monad prog_bind_fix].
  destruct (N.eqb_spec (N.of_nat (length images)) (N.of_nat (length detections)))
    as [Heq|Hne]; cbn [negb].
  - split; [lia|]. intros _. cbn.
    destruct (Dlib.images_and_nested_params_to_dlib h _ _ _ _ w)
      as [[[imgs dets]|e] w1]; [|done]. cbn.
    by destruct (Dlib.train_shape_predictor_on_images h "" imgs dets
                   predictor_output_filename options w1) as [[[]|e] w2].
  - split; [done|]. lia.
Qed.

(** ** Testing: the first length check *)

(** X5.  [test_shape_predictor_with_images_py] on lists of images and
    detections of different lengths throws the error that names the
    detections, whatever the list of scales is (also one of the wrong
    length), and calls nothing; so does the variant without scales. *)
Theorem test_images_mismatch_no_work {W : Type} (h : Dlib.collaborators W)
    (w : W) (images detections scales : list object)
    (predictor_filename : string) :
  length images ≠ length detections →
  run h (test_shape_predictor_with_images_py (PyList images)
           (PyList detections) (PyList scales) predictor_filename) w
  = mk_ran (Raise images_length_error) w [] ∧
  run h (test_shape_predictor_with_images_no_scales_py (PyList images)
           (PyList detections) predictor_filename) w
  = mk_ran (Raise images_length_error) w [].
Proof.
  intros Hne.
  unfold test_shape_predictor_with_images_no_scales_py,
    test_shape_predictor_with_images_py.
  cbn [len lift bind prog_monad prog_bind_fix].
  destruct (N.eqb_spec (N.of_nat (length images)) (N.of_nat (length detections)))
    as [Heq|_]; [lia|done].
Qed.

Lemma test_images_mismatch_no_work_witness :
  run sample_collaborators
    (test_shape_predictor_with_images_py (PyList [sample_gray; sample_rgb])
       (PyList [PyList [PyFullObjectDetection sample_detection]])
       (PyList [PyList []; PyList []; PyList []]) "predictor.dat") []
  = mk_ran (Raise images_length_error) [] [] ∧
  run sample_collaborators
    (test_shape_predictor_with_images_no_scales_py
       (PyList [sample_gray; sample_rgb])
       (PyList [PyList [PyFullObjectDetection sample_detection]])
       "predictor.dat") []
  = mk_ran (Raise images_length_error) [] [].
Proof. apply test_images_mismatch_no_work. simpl. lia. Defined.

(** ** Testing: what reaches the evaluator *)

Lemma run_for_range_invariant {W S : Type} (h : Dlib.collaborators W)
    (body : N → S → prog S) (P : nat → S → Prop) :
  (∀ i s w s', P i s → result (run h (body (N.of_nat i) s) w) = Ok s' →
               P (Datatypes.S i) s') →
  ∀ n i s w s', P i s →
    result (run h (for_range n (N.of_nat i) body s) w) = Ok s' →
    P (i + n)%nat s'.
Proof.
  intros Hstep n. induction n as [|n IH]; intros i s w s' HP.
  - cbn. intros [= <-]. by rewrite Nat.add_0_r.
  - cbn [for_range]. rewrite run_bind.
    destruct (result (run h (body (N.of_nat i) s) w)) as [s1|e] eqn:Hpass;
      [|done].
    cbn [result].
    replace (N.of_nat i + 1) with (N.of_nat (Datatypes.S i)) by lia.
    intros Hrest. replace (i + Datatypes.S n)%nat with (Datatypes.S i + n)%nat by lia.
    eapply IH; [|exact Hrest]. by eapply Hstep.
Qed.

Lemma copy_scales_ok (pyscales : object) (i num_boxes : N)
    (scales scales' : list (list double)) :
  copy_scales pyscales i num_boxes scales = Ok scales' →
  ∃ xs, length xs = N.to_nat num_boxes ∧
        scales' = alter (fun v => v ++ xs) (N.to_nat i) scales.
Proof.
  apply for_range_push. intros j acc acc'.
  destruct (getitem pyscales i) as [row|]; [|done]. cbn.
  destruct (getitem row j) as [o|]; [|done]. cbn.
  destruct (extract_double o) as [d|]; [|done]. cbn.
  intros [= <-]. by exists d.
Qed.

Lemma check_and_copy_scales_ok (pyscales : object) (i num_boxes : N)
    (scales scales' : list (list double)) :
  check_and_copy_scales pyscales i num_boxes scales = Ok scales' →
  ∃ xs, length xs = N.to_nat num_boxes ∧
        scales' = alter (fun v => v ++ xs) (N.to_nat i) scales.
Proof.
  unfold check_and_copy_scales.
  destruct (getitem pyscales i) as [srow|]; [|done]. cbn.
  destruct (len srow) as [m|]; [|done]. cbn.
  destruct (negb (num_boxes =? m)); [done|]. apply copy_scales_ok.
Qed.

Lemma test_copy_image_invariant {W : Type} (h : Dlib.collaborators W)
    (pyimages pydetections pyscales : object) (num_scales : N) (n i : nat)
    (st st' : test_data) (w : W) :
  copy_invariant num_scales n i st →
  result (run h (test_copy_image pyimages pydetections pyscales num_scales
                   (N.of_nat i) st) w) = Ok st' →
  copy_invariant num_scales n (Datatypes.S i) st'.
Proof.
  destruct st as [[imgs dets] scs]. intros (Hli & Hld & Hls & Habove & Hbelow).
  rewrite run_test_copy_image.
  destruct (test_copy_head pyimages pydetections (N.of_nat i) dets)
    as [[[nb d'] pyimage]|e] eqn:Hhead; [|done].
  destruct (Dlib.pyimage_to_dlib_image h pyimage w) as [[image|e] w']; [|done].
  cbn [result].
  assert (Hboxes : ∃ xs, length xs = N.to_nat nb ∧
                         d' = alter (fun v => v ++ xs) i dets).
  { unfold test_copy_head in Hhead.
    destruct (getitem pydetections (N.of_nat i)) as [row|]; [|done].
    cbn in Hhead. destruct (len row) as [nb'|]; [|done]. cbn in Hhead.
    destruct (copy_boxes pydetections (N.of_nat i) nb' dets) as [d1|] eqn:Hb;
      [|done].
    cbn in Hhead. destruct (getitem pyimages (N.of_nat i)); [|done].
    cbn in Hhead. injection Hhead as -> -> _.
    apply copy_boxes_ok in Hb. by rewrite Nat2N.id in Hb. }
  destruct Hboxes as (xs & Hxs & ->). rewrite Nat2N.id.
  destruct (0 <? num_scales) eqn:Hsc.
  - destruct (check_and_copy_scales pyscales (N.of_nat i) nb scs) as [scs'|e]
      eqn:Hcopy; [|done].
    cbn. intros [= <-].
    apply check_and_copy_scales_ok in Hcopy as (ys & Hys & ->).
    rewrite Nat2N.id. unfold copy_invariant.
    rewrite Hsc, length_insert, !length_alter.
    split; [done|]. split; [done|]. split; [done|]. split.
    + intros k Hk. rewrite !list_lookup_alter_ne by lia. apply Habove. lia.
    + intros k d Hk. destruct (decide (k = i)) as [->|Hne].
      * destruct (decide (i < n)%nat) as [Hin|Hin].
        2:{ intros Hd%lookup_lt_Some. rewrite length_alter in Hd. lia. }
        destruct (Habove i ltac:(lia)) as [Hdi Hsi].
        rewrite !list_lookup_alter_eq, Hdi, (Hsi eq_refl). cbn.
        intros [= <-] _. eexists. split; [done|]. lia.
      * rewrite !list_lookup_alter_ne by done. apply Hbelow. lia.
  - cbn. intros [= <-]. unfold copy_invariant.
    rewrite Hsc, length_insert, length_alter.
    split; [done|]. split; [done|]. split; [done|]. split.
    + intros k Hk. rewrite list_lookup_alter_ne by lia. apply Habove. lia.
    + intros k d _ _ Hfalse. discriminate.
Qed.

Lemma copy_invariant_init (n ns : N) :
  (0 <? ns) && negb (ns =? n) = false →
  copy_invariant ns (N.to_nat n) 0
    (replicate (N.to_nat n) [], replicate (N.to_nat n) [],
     if 0 <? ns then replicate (N.to_nat ns) [] else []).
Proof.
  intros Hcheck. unfold copy_invariant. rewrite !length_replicate.
  split; [done|]. split; [done|].
  destruct (0 <? ns) eqn:Hns.
  - cbn in Hcheck. apply negb_false_iff, N.eqb_eq in Hcheck as ->.
    rewrite length_replicate. split; [done|]. split.
    + intros k Hk. split; [|intros _]; apply lookup_replicate_2; lia.
    + intros k d Hk. lia.
  - split; [done|]. split.
    + intros k Hk. split; [apply lookup_replicate_2; lia|done].
    + intros k d Hk. lia.
Qed.

(** What an evaluator call in the log of the test function tells. *)
Lemma test_evaluator_event {W : Type} (h : Dlib.collaborators W) (w : W)
    (pyimages pydetections pyscales : object) (predictor_filename : string)
    (imgs : list array2d_rgb) (dets : list (list full_object_detection))
    (scs : list (list double)) (f : string) :
  Ev_test_shape_predictor_with_images imgs dets scs f
    ∈ calls (run h (test_shape_predictor_with_images_py pyimages pydetections
                      pyscales predictor_filename) w) →
  ∃ n ns, len pyimages = Ok n ∧ len pyscales = Ok ns ∧ f = predictor_filename ∧
          (0 <? ns) && negb (ns =? n) = false ∧
          copy_invariant ns (N.to_nat n) (N.to_nat n) (imgs, dets, scs).
Proof.
  unfold test_shape_predictor_with_images_py.
  destruct (len pyimages) as [n|e]; [|by intros ?%elem_of_nil].
  destruct (len pyscales) as [ns|e]; [|by intros ?%elem_of_nil].
  destruct (len pydetections) as [nd|e]; [|by intros ?%elem_of_nil].
  cbn [lift bind prog_monad prog_bind_fix].
  destruct (negb (n =? nd)); [by intros ?%elem_of_nil|].
  destruct ((0 <? ns) && negb (ns =? n)) eqn:Hcheck; [by intros ?%elem_of_nil|].
  rewrite run_prog_bind_fix.
  match goal with
  | |- context [run h (for_range ?m 0 ?body ?st) w] =>
      pose proof (test_copy_loop_calls h pyimages pydetections pyscales ns m 0
                    st w) as Hcalls;
      pose proof (run_for_range_invariant h body
                    (copy_invariant ns (N.to_nat n))
                    (fun i s w0 s' => test_copy_image_invariant h pyimages
                       pydetections pyscales ns (N.to_nat n) i s s' w0)
                    m 0%nat st w) as Hinv;
      change (N.of_nat 0) with 0 in Hinv;
      destruct (result (run h (for_range m 0 body st) w)) as [[[ia da] sa]|e]
  end.
  - cbn [calls]. intros Hin. apply elem_of_app in Hin as [Hin|Hin].
    + rewrite Forall_forall in Hcalls. by apply Hcalls in Hin.
    + cbn in Hin.
      destruct (Dlib.test_shape_predictor_with_images h ia da sa
                  predictor_filename _) as [[x|e] w'];
        cbn in Hin; apply list_elem_of_singleton in Hin;
        injection Hin as -> -> -> ->;
        exists n, ns; (split; [done|]); (split; [done|]); (split; [done|]);
        (split; [done|]);
        apply (Hinv _ (copy_invariant_init n ns Hcheck) eq_refl).
  - cbn [calls]. intros Hin. rewrite Forall_forall in Hcalls.
    by apply Hcalls in Hin.
Qed.

(** X6.  On Python lists as its three sequence arguments, whatever the
    lists hold, an evaluator call made by
    [test_shape_predictor_with_images_py] gets the file name as given, one
    image per element of the list of images, as many rows of detections as
    images, as many rows of scales as the list of scales has elements, and
    either no scales at all or one row of scales per row of detections, of
    the same length: the evaluator is never handed containers that
    disagree. *)
Theorem test_evaluator_containers_agree {W : Type} (h : Dlib.collaborators W)
    (w : W) (images detections scales : list object)
    (predictor_filename : string)
    (imgs : list array2d_rgb) (dets : list (list full_object_detection))
    (scs : list (list double)) (f : string) :
  Ev_test_shape_predictor_with_images imgs dets scs f
    ∈ calls (run h (test_shape_predictor_with_images_py (PyList images)
                      (PyList detections) (PyList scales) predictor_filename) w) →
  f = predictor_filename ∧
  length imgs = length images ∧
  length scs = length scales ∧
  containers_agree (imgs, dets, scs).
Proof.
  intros Hin.
  destruct (test_evaluator_event h w (PyList images) (PyList detections)
              (PyList scales) predictor_filename imgs dets scs f Hin)
    as (n & ns & [= <-] & [= <-] & -> & Hcheck & Hli & Hld & Hls & _ & Hrows).
  rewrite Nat2N.id in Hli, Hld, Hls.
  split; [done|]. split; [done|].
  assert (Hscs : length scs = length scales).
  { destruct (0 <? N.of_nat (length scales)) eqn:Hns.
    - cbn in Hcheck. apply negb_false_iff, N.eqb_eq in Hcheck. lia.
    - apply N.ltb_ge in Hns. rewrite Hls. cbn. lia. }
  split; [done|]. split; [lia|]. unfold scales_fit.
  destruct (0 <? N.of_nat (length scales)) eqn:Hns; [right|by left].
  apply Forall2_same_length_lookup_2; [lia|].
  intros k d s Hd Hs.
  destruct (Hrows k d) as (s' & Hs' & Hlen); [|done|done|congruence].
  rewrite Nat2N.id. apply lookup_lt_Some in Hd. lia.
Qed.

Lemma test_evaluator_containers_agree_witness :
  "predictor.dat" = "predictor.dat" ∧
  length [[[mk_rgb_pixel 0 0 0]]] = length [sample_gray] ∧
  length [[1%R]] = length [PyList [PyFloat 1]] ∧
  containers_agree ([[[mk_rgb_pixel 0 0 0]]], [[sample_detection]], [[1%R]]).
Proof.
  apply (test_evaluator_containers_agree sample_collaborators
           [("predictor.dat", serialize sample_model)]
           [sample_gray]
           [PyList [PyFullObjectDetection sample_detection]]
           [PyList [PyFloat 1]]).
  rewrite test_with_scales_on_sample.
  apply list_elem_of_further, list_elem_of_here.
Defined.

(** X7.  Whatever the arguments of
    [test_shape_predictor_with_images_no_scales_py] are, an evaluator call
    it makes carries an empty vector of scales. *)
Theorem test_no_scales_evaluator_gets_none {W : Type}
    (h : Dlib.collaborators W) (w : W) (pyimages pydetections : object)
    (predictor_filename : string)
    (imgs : list array2d_rgb) (dets : list (list full_object_detection))
    (scs : list (list double)) (f : string) :
  Ev_test_shape_predictor_with_images imgs dets scs f
    ∈ calls (run h (test_shape_predictor_with_images_no_scales_py pyimages
                      pydetections predictor_filename) w) →
  scs = [].
Proof.
  intros Hin. unfold test_shape_predictor_with_images_no_scales_py in Hin.
  destruct (test_evaluator_event h w pyimages pydetections (PyList [])
              predictor_filename imgs dets scs f Hin)
    as (n & ns & _ & [= <-] & _ & _ & _ & _ & Hls & _).
  exact Hls.
Qed.

Lemma test_no_scales_evaluator_gets_none_witness : @nil (list double) = [].
Proof.
  apply (test_no_scales_evaluator_gets_none sample_collaborators
           [("predictor.dat", serialize sample_model)]
           (PyList [sample_gray])
           (PyList [PyList [PyFullObjectDetection sample_detection]])
           "predictor.dat" [[[mk_rgb_pixel 0 0 0]]] [[sample_detection]] []
           "predictor.dat").
  rewrite test_without_scales_on_sample.
  apply list_elem_of_further, list_elem_of_here.
Defined.

(** ** Testing: the order of the calls *)

Lemma test_copy_image_calls_exact {W : Type} (h : Dlib.collaborators W)
    (images : list object) (pydetections pyscales : object)
    (num_scales : N) (i : nat) (st : test_data) (w : W) :
  (calls (run h (test_copy_image (PyList images) pydetections pyscales
                   num_scales (N.of_nat i) st) w) = [] ∧
   ∃ e, result (run h (test_copy_image (PyList images) pydetections pyscales
                         num_scales (N.of_nat i) st) w) = Raise e) ∨
  (∃ pyimage, images !! i = Some pyimage ∧
     calls (run h (test_copy_image (PyList images) pydetections pyscales
                     num_scales (N.of_nat i) st) w)
     = [Ev_pyimage_to_dlib_image pyimage]).
Proof.
  destruct st as [[imgs dets] scs]. rewrite run_test_copy_image.
  destruct (test_copy_head (PyList images) pydetections (N.of_nat i) dets)
    as [[[nb d'] pyimage]|e] eqn:Hhead; [right|left; split; [done|by eexists]].
  exists pyimage. split.
  - unfold test_copy_head in Hhead.
    destruct (getitem pydetections (N.of_nat i)) as [row|]; [|done].
    cbn in Hhead. destruct (len row); [|done]. cbn in Hhead.
    destruct (copy_boxes _ _ _ _); [|done]. cbn in Hhead.
    rewrite Nat2N.id in Hhead.
    destruct (images !! i) as [o|]; [|done]. cbn in Hhead. congruence.
  - by destruct (Dlib.pyimage_to_dlib_image h pyimage w) as [[image|e] w'].
Qed.

Lemma test_copy_loop_calls_exact {W : Type} (h : Dlib.collaborators W)
    (images : list object) (pydetections pyscales : object) (num_scales : N)
    (n i : nat) (st : test_data) (w : W) :
  ∃ c, (c ≤ n)%nat ∧ (c = 0 ∨ i + c ≤ length images)%nat ∧
    calls (run h (for_range n (N.of_nat i)
                    (test_copy_image (PyList images) pydetections pyscales
                       num_scales) st) w)
    = map Ev_pyimage_to_dlib_image (take c (drop i images)) ∧
    (∀ st', result (run h (for_range n (N.of_nat i)
                             (test_copy_image (PyList images) pydetections
                                pyscales num_scales) st) w) = Ok st' →
            c = n).
Proof.
  revert i st w. induction n as [|n IH]; intros i st w.
  - exists 0%nat. cbn. split; [lia|]. split; [by left|]. by split.
  - cbn [for_range]. rewrite run_bind.
    destruct (test_copy_image_calls_exact h images pydetections pyscales
                num_scales i st w) as [[Hcalls [e He]]|(pyimage & Himg & Hcalls)].
    + rewrite He. cbn [calls result]. rewrite Hcalls.
      exists 0%nat. split; [lia|]. split; [by left|]. by split.
    + destruct (result (run h (test_copy_image _ _ _ _ (N.of_nat i) st) w))
        as [st1|e].
      * cbn [calls result]. rewrite Hcalls.
        replace (N.of_nat i + 1) with (N.of_nat (Datatypes.S i)) by lia.
        destruct (IH (Datatypes.S i) st1
                    (world (run h (test_copy_image (PyList images) pydetections
                                     pyscales num_scales (N.of_nat i) st) w)))
          as (c & Hc & Hbound & -> & Hok).
        exists (Datatypes.S c). split; [lia|]. split.
        { right. apply lookup_lt_Some in Himg. lia. }
        split; [by rewrite (drop_S _ _ _ Himg)|].
        intros st' Hst'. f_equal. by eapply Hok.
      * cbn [calls result]. rewrite Hcalls. exists 1%nat.
        split; [lia|]. split.
        { right. apply lookup_lt_Some in Himg. lia. }
        split; [by rewrite (drop_S _ _ _ Himg)|done].
Qed.

(** X8.  The calls of [test_shape_predictor_with_images_py] on a list of
    images are conversions of the first [c] images, in list order and one
    each, followed by nothing or, only when every image was converted, by
    one evaluator call with the file name as given. *)
Theorem test_calls_in_order {W : Type} (h : Dlib.collaborators W) (w : W)
    (images : list object) (pydetections pyscales : object)
    (predictor_filename : string) :
  ∃ (c : nat) (tail : list event),
    (c ≤ length images)%nat ∧
    calls (run h (test_shape_predictor_with_images_py (PyList images)
                    pydetections pyscales predictor_filename) w)
    = map Ev_pyimage_to_dlib_image (take c images) ++ tail ∧
    (tail = [] ∨
     (c = length images ∧
      ∃ imgs dets scs,
        tail = [Ev_test_shape_predictor_with_images imgs dets scs
                  predictor_filename])).
Proof.
  unfold test_shape_predictor_with_images_py. cbn [len lift].
  cbn [bind prog_monad prog_bind_fix].
  destruct (len pyscales) as [ns|e]; [|exists 0%nat, []; split; [lia|]; split; [done|by left]].
  cbn [lift prog_bind_fix].
  destruct (len pydetections) as [nd|e];
    [|exists 0%nat, []; split; [lia|]; split; [done|by left]].
  cbn [lift prog_bind_fix].
  destruct (negb (N.of_nat (length images) =? nd));
    [exists 0%nat, []; split; [lia|]; split; [done|by left]|].
  destruct ((0 <? ns) && negb (ns =? N.of_nat (length images)));
    [exists 0%nat, []; split; [lia|]; split; [done|by left]|].
  rewrite run_prog_bind_fix. rewrite Nat2N.id.
  match goal with
  | |- context [run h (for_range ?m 0 ?body ?st) w] =>
      destruct (test_copy_loop_calls_exact h images pydetections pyscales ns
                  m 0%nat st w) as (c & Hc & Hbound & Hcalls & Hok);
      change (N.of_nat 0) with 0 in Hcalls, Hok;
      destruct (result (run h (for_range m 0 body st) w)) as [[[ia da] sa]|e]
  end.
  - cbn [calls]. rewrite Hcalls, drop_0. rewrite (Hok _ eq_refl).
    exists (length images). eexists. split; [lia|]. split; [done|].
    right. split; [done|]. exists ia, da, sa. cbn.
    by destruct (Dlib.test_shape_predictor_with_images h ia da sa
                   predictor_filename _) as [[x|e] w'].
  - cbn [calls]. rewrite Hcalls, drop_0. exists c, [].
    split; [lia|]. split; [by rewrite app_nil_r|by left].
Qed.

(** ** Testing: well-typed input *)

Lemma for_range_push_list {A : Type} (k : nat)
    (body : N → list (list A) → outcome (list (list A))) (xs : list A) :
  (∀ j x acc, xs !! j = Some x →
     body (N.of_nat j) acc = Ok (alter (fun v => v ++ [x]) k acc)) →
  ∀ n j acc, (j + n = length xs)%nat →
    for_range n (N.of_nat j) body acc
    = Ok (alter (fun v => v ++ drop j xs) k acc).
Proof.
  intros Hbody n. induction n as [|n IH]; intros j acc Hlen; cbn.
  - f_equal. symmetry. apply list_alter_id. intros v.
    rewrite drop_ge by lia. apply app_nil_r.
  - destruct (lookup_lt_is_Some_2 xs j) as [x Hx]; [lia|].
    rewrite (Hbody _ _ _ Hx).
    replace (N.of_nat j + 1) with (N.of_nat (Datatypes.S j)) by lia.
    rewrite IH by lia. f_equal.
    rewrite list_alter_alter_eq. apply list_alter_ext; [|done].
    intros v _. cbn. by rewrite (drop_S _ _ _ Hx), <- app_assoc.
Qed.

Lemma copy_boxes_exact (detections : list (list full_object_detection))
    (i : nat) (d : list full_object_detection)
    (acc : list (list full_object_detection)) :
  detections !! i = Some d →
  copy_boxes (PyList (py_detections detections)) (N.of_nat i)
    (N.of_nat (length d)) acc
  = Ok (alter (fun v => v ++ d) i acc).
Proof.
  intros Hd. unfold copy_boxes. rewrite !Nat2N.id.
  rewrite (for_range_push_list i _ d) with (j := 0%nat); [done| |done].
  intros j x acc' Hx. cbn [getitem]. unfold py_detections.
  rewrite Nat2N.id, list_lookup_fmap, Hd. cbn.
  by rewrite Nat2N.id, list_lookup_fmap, Hx.
Qed.

Lemma copy_scales_exact (scales : list (list double)) (i : nat)
    (s : list double) (acc : list (list double)) :
  scales !! i = Some s →
  copy_scales (PyList (py_scales scales)) (N.of_nat i) (N.of_nat (length s)) acc
  = Ok (alter (fun v => v ++ s) i acc).
Proof.
  intros Hs. unfold copy_scales. rewrite !Nat2N.id.
  rewrite (for_range_push_list i _ s) with (j := 0%nat); [done| |done].
  intros j x acc' Hx. cbn [getitem]. unfold py_scales.
  rewrite Nat2N.id, list_lookup_fmap, Hs. cbn.
  by rewrite Nat2N.id, list_lookup_fmap, Hx.
Qed.

Lemma filled_upto_step {A : Type} (i m : nat) (rows : list (list A))
    (row : list A) :
  rows !! i = Some row →
  alter (fun v => v ++ row) i (filled_upto i (Datatypes.S m) rows)
  = filled_upto (Datatypes.S i) m rows.
Proof.
  intros Hrow. unfold filled_upto.
  assert (Hi : length (take i rows) = i).
  { rewrite length_take. apply lookup_lt_Some in Hrow. lia. }
  rewrite alter_app_r_alt by lia. rewrite Hi, Nat.sub_diag. cbn.
  by rewrite (take_S_r _ _ _ Hrow), <- app_assoc.
Qed.

Lemma filled_upto_all {A : Type} (rows : list (list A)) :
  filled_upto (length rows) 0 rows = rows.
Proof. unfold filled_upto. by rewrite take_ge, app_nil_r. Qed.

(** One pass on well-typed input: the boxes and the scales of image [i]
    are appended to their rows and the image is converted. *)
Lemma test_copy_image_typed {W : Type} (h : Dlib.collaborators W)
    (images : list object) (detections : list (list full_object_detection))
    (scales : list (list double)) (i m : nat) (img : object)
    (converted : list array2d_rgb) (w : W) :
  length converted = i →
  images !! i = Some img →
  (i < length detections)%nat →
  scales_fit detections scales →
  run h (test_copy_image (PyList images) (PyList (py_detections detections))
           (PyList (py_scales scales)) (N.of_nat (length scales)) (N.of_nat i)
           (converted ++ replicate (Datatypes.S m) [],
            filled_upto i (Datatypes.S m) detections,
            scales_upto i (Datatypes.S m) scales)) w
  = match Dlib.pyimage_to_dlib_image h img w with
    | (Ok image, w') =>
        mk_ran (Ok ((converted ++ [image]) ++ replicate m [],
                    filled_upto (Datatypes.S i) m detections,
                    scales_upto (Datatypes.S i) m scales))
          w' [Ev_pyimage_to_dlib_image img]
    | (Raise e, w') => mk_ran (Raise e) w' [Ev_pyimage_to_dlib_image img]
    end.
Proof.
  intros Hconv Himg Hi Hfit.
  destruct (lookup_lt_is_Some_2 detections i Hi) as [d Hd].
  rewrite run_test_copy_image.
  assert (Hhead : test_copy_head (PyList images)
                    (PyList (py_detections detections)) (N.of_nat i)
                    (filled_upto i (Datatypes.S m) detections)
                  = Ok (N.of_nat (length d),
                        filled_upto (Datatypes.S i) m detections, img)).
  { unfold test_copy_head. cbn [getitem]. unfold py_detections at 1.
    rewrite Nat2N.id, list_lookup_fmap, Hd, Himg.
    cbn [fmap option_fmap option_map bind outcome_monad len].
    rewrite length_map, (copy_boxes_exact detections i d _ Hd).
    by rewrite (filled_upto_step i m detections d Hd). }
  rewrite Hhead.
  destruct (Dlib.pyimage_to_dlib_image h img w) as [[image|e] w']; [|done].
  f_equal. rewrite Nat2N.id.
  assert (Himgs : <[i:=image]> (converted ++ replicate (Datatypes.S m) [])
                  = (converted ++ [image]) ++ replicate m []).
  { rewrite insert_app_r_alt by lia. rewrite Hconv, Nat.sub_diag.
    by rewrite <- app_assoc. }
  rewrite Himgs.
  destruct Hfit as [->|Hfit]; [done|].
  destruct scales as [|s0 scales']; [by apply Forall2_nil_inv_r in Hfit; subst|].
  set (scales := s0 :: scales') in *.
  destruct (Forall2_lookup_l _ _ _ _ _ Hfit Hd) as (s & Hs & Hlen).
  replace (0 <? N.of_nat (length scales)) with true
    by (symmetry; apply N.ltb_lt; cbn; lia).
  unfold check_and_copy_scales. cbn [getitem]. unfold py_scales at 1.
  rewrite Nat2N.id, list_lookup_fmap, Hs.
  cbn [fmap option_fmap option_map bind outcome_monad len].
  rewrite length_map, Hlen, N.eqb_refl. cbn [negb].
  rewrite (copy_scales_exact scales i s _ Hs).
  cbn [bind outcome_monad ret]. unfold scales_upto. subst scales. cbn iota.
  by rewrite (filled_upto_step i m (s0 :: scales') s Hs).
Qed.

Lemma length_py_detections (detections : list (list full_object_detection)) :
  length (py_detections detections) = length detections.
Proof. apply length_map. Qed.

Lemma length_py_scales (scales : list (list double)) :
  length (py_scales scales) = length scales.
Proof. apply length_map. Qed.

Lemma test_copy_loop_typed {W : Type} (h : Dlib.collaborators W)
    (images : list object) (detections : list (list full_object_detection))
    (scales : list (list double)) :
  length images = length detections →
  scales_fit detections scales →
  ∀ (m : nat) (converted : list array2d_rgb) (w : W),
    (length converted + m = length images)%nat →
    match convert_all h (drop (length converted) images) w with
    | (Ok rest, w') =>
        run h (for_range m (N.of_nat (length converted))
                 (test_copy_image (PyList images)
                    (PyList (py_detections detections))
                    (PyList (py_scales scales)) (N.of_nat (length scales)))
                 (converted ++ replicate m [],
                  filled_upto (length converted) m detections,
                  scales_upto (length converted) m scales)) w
        = mk_ran (Ok (converted ++ rest, detections, scales)) w'
            (map Ev_pyimage_to_dlib_image (drop (length converted) images))
    | (Raise e, w') =>
        result (run h (for_range m (N.of_nat (length converted))
                         (test_copy_image (PyList images)
                            (PyList (py_detections detections))
                            (PyList (py_scales scales))
                            (N.of_nat (length scales)))
                         (converted ++ replicate m [],
                          filled_upto (length converted) m detections,
                          scales_upto (length converted) m scales)) w)
        = Raise e ∧
        world (run h (for_range m (N.of_nat (length converted))
                        (test_copy_image (PyList images)
                           (PyList (py_detections detections))
                           (PyList (py_scales scales))
                           (N.of_nat (length scales)))
                        (converted ++ replicate m [],
                         filled_upto (length converted) m detections,
                         scales_upto (length converted) m scales)) w)
        = w'
    end.
Proof.
  intros Hlen Hfit m. induction m as [|m IH]; intros converted w Hm.
  - rewrite drop_ge by lia. cbn.
    replace (length converted) with (length detections) by lia.
    rewrite filled_upto_all.
    assert (Hs : scales_upto (length detections) 0 scales = scales).
    { unfold scales_upto. destruct Hfit as [->|Hfit]; [done|].
      apply Forall2_length in Hfit. rewrite Hfit.
      destruct scales; [done|]. apply filled_upto_all. }
    by rewrite Hs.
  - destruct (lookup_lt_is_Some_2 images (length converted)) as [img Himg];
      [lia|].
    rewrite (drop_S _ _ _ Himg). cbn [convert_all for_range].
    rewrite run_bind.
    rewrite (test_copy_image_typed h images detections scales
               (length converted) m img converted w eq_refl Himg
               ltac:(lia) Hfit).
    destruct (Dlib.pyimage_to_dlib_image h img w) as [[image|e] w1]; [|done].
    cbn [result world calls].
    replace (N.of_nat (length converted) + 1)
      with (N.of_nat (length (converted ++ [image])))
      by (rewrite length_app; cbn; lia).
    replace (Datatypes.S (length converted))
      with (length (converted ++ [image]))
      by (rewrite length_app; cbn; lia).
    specialize (IH (converted ++ [image]) w1).
    destruct (convert_all h (drop (length (converted ++ [image])) images) w1)
      as [[rest|e] w2].
    + rewrite IH by (rewrite length_app; cbn; lia).
      cbn. by rewrite <- app_assoc.
    + destruct IH as [-> ->]; [rewrite length_app; cbn; lia|]. done.
Qed.

(** X9.  On well-typed input (lists of [full_object_detection], lists of
    float scales shaped like the detections or no scales, as many images
    as rows of detections) whose images all convert,
    [test_shape_predictor_with_images_py] converts every image once, in
    order, then calls the evaluator once with the converted images and
    exactly the detections and scales of the Python lists; the result and
    the world of the run are the evaluator's. *)
Theorem test_typed_hands_over_the_data {W : Type} (h : Dlib.collaborators W)
    (w w' : W) (images : list object)
    (detections : list (list full_object_detection))
    (scales : list (list double)) (converted : list array2d_rgb)
    (predictor_filename : string) :
  length images = length detections →
  scales_fit detections scales →
  convert_all h images w = (Ok converted, w') →
  run h (test_shape_predictor_with_images_py (PyList images)
           (PyList (py_detections detections)) (PyList (py_scales scales))
           predictor_filename) w
  = mk_ran
      (Dlib.test_shape_predictor_with_images h converted detections scales
         predictor_filename w').1
      (Dlib.test_shape_predictor_with_images h converted detections scales
         predictor_filename w').2
      (map Ev_pyimage_to_dlib_image images ++
       [Ev_test_shape_predictor_with_images converted detections scales
          predictor_filename]).
Proof.
  intros Hlen Hfit Hconv.
  assert (Hsc : scales = [] ∨ length scales = length images).
  { destruct Hfit as [->|Hfit]; [by left|right].
    apply Forall2_length in Hfit. lia. }
  unfold test_shape_predictor_with_images_py. cbn [len lift].
  cbn [bind prog_monad prog_bind_fix lift].
  rewrite !length_py_detections, !length_py_scales.
  rewrite <- Hlen, N.eqb_refl. cbn [negb].
  assert (Hcheck : (0 <? N.of_nat (length scales))
                   && negb (N.of_nat (length scales) =? N.of_nat (length images))
                   = false).
  { destruct Hsc as [-> | ->]; [done|]. by rewrite N.eqb_refl, andb_false_r. }
  rewrite Hcheck. rewrite run_prog_bind_fix, !Nat2N.id.
  pose proof (test_copy_loop_typed h images detections scales Hlen Hfit
                (length images) [] w eq_refl) as Hloop.
  cbn [length] in Hloop. rewrite drop_0, Hconv in Hloop.
  change (N.of_nat 0) with 0 in Hloop.
  assert (Hinit : (if 0 <? N.of_nat (length scales)
                   then replicate (length scales) []
                   else [])
                  = scales_upto 0 (length images) scales).
  { destruct Hsc as [->|Hs]; [done|].
    destruct scales as [|s0 scales']; [done|].
    replace (0 <? N.of_nat (length (s0 :: scales'))) with true
      by (symmetry; apply N.ltb_lt; cbn; lia).
    by rewrite Hs. }
  rewrite Hinit. cbn [app] in Hloop.
  change (filled_upto 0 (length images) detections)
    with (replicate (length images) (@nil full_object_detection)) in Hloop.
  rewrite Hloop. cbn.
  by destruct (Dlib.test_shape_predictor_with_images h converted detections
                 scales predictor_filename w') as [[x|e] w2].
Qed.

Lemma test_typed_hands_over_the_data_witness :
  run sample_collaborators
    (test_shape_predictor_with_images_py (PyList [sample_gray; sample_rgb])
       (PyList (py_detections [[sample_detection]; []]))
       (PyList (py_scales [[2%R]; []])) "predictor.dat")
    [("predictor.dat", serialize sample_model)]
  = mk_ran
      (Dlib.test_shape_predictor_with_images sample_collaborators
         [[[mk_rgb_pixel 0 0 0]]; [[mk_rgb_pixel 0 0 0]]]
         [[sample_detection]; []] [[2%R]; []] "predictor.dat"
         [("predictor.dat", serialize sample_model)]).1
      (Dlib.test_shape_predictor_with_images sample_collaborators
         [[[mk_rgb_pixel 0 0 0]]; [[mk_rgb_pixel 0 0 0]]]
         [[sample_detection]; []] [[2%R]; []] "predictor.dat"
         [("predictor.dat", serialize sample_model)]).2
      (map Ev_pyimage_to_dlib_image [sample_gray; sample_rgb] ++
       [Ev_test_shape_predictor_with_images
          [[[mk_rgb_pixel 0 0 0]]; [[mk_rgb_pixel 0 0 0]]]
          [[sample_detection]; []] [[2%R]; []] "predictor.dat"]).
Proof.
  apply test_typed_hands_over_the_data.
  - reflexivity.
  - right. repeat constructor.
  - reflexivity.
Defined.

(** X10.  On such well-typed input, if converting an image throws, the
    run throws that error, its world is the one the failed conversion left,
    and the evaluator is not called. *)
Theorem test_typed_conversion_failure {W : Type} (h : Dlib.collaborators W)
    (w w' : W) (images : list object)
    (detections : list (list full_object_detection))
    (scales : list (list double)) (e : exception)
    (predictor_filename : string) :
  length images = length detections →
  scales_fit detections scales →
  convert_all h images w = (Raise e, w') →
  result (run h (test_shape_predictor_with_images_py (PyList images)
                   (PyList (py_detections detections))
                   (PyList (py_scales scales)) predictor_filename) w)
  = Raise e ∧
  world (run h (test_shape_predictor_with_images_py (PyList images)
                  (PyList (py_detections detections))
                  (PyList (py_scales scales)) predictor_filename) w)
  = w' ∧
  Forall (fun ev => is_inference ev = false)
    (calls (run h (test_shape_predictor_with_images_py (PyList images)
                     (PyList (py_detections detections))
                     (PyList (py_scales scales)) predictor_filename) w)).
Proof.
  intros Hlen Hfit Hconv.
  assert (Hsc : scales = [] ∨ length scales = length images).
  { destruct Hfit as [->|Hfit]; [by left|right].
    apply Forall2_length in Hfit. lia. }
  unfold test_shape_predictor_with_images_py. cbn [len lift].
  cbn [bind prog_monad prog_bind_fix lift].
  rewrite !length_py_detections, !length_py_scales.
  rewrite <- Hlen, N.eqb_refl. cbn [negb].
  assert (Hcheck : (0 <? N.of_nat (length scales))
                   && negb (N.of_nat (length scales) =? N.of_nat (length images))
                   = false).
  { destruct Hsc as [-> | ->]; [done|]. by rewrite N.eqb_refl, andb_false_r. }
  rewrite Hcheck. rewrite !run_prog_bind_fix, !Nat2N.id.
  pose proof (test_copy_loop_typed h images detections scales Hlen Hfit
                (length images) [] w eq_refl) as Hloop.
  cbn [length] in Hloop. rewrite drop_0, Hconv in Hloop.
  change (N.of_nat 0) with 0 in Hloop.
  assert (Hinit : (if 0 <? N.of_nat (length scales)
                   then replicate (length scales) []
                   else [])
                  = scales_upto 0 (length images) scales).
  { destruct Hsc as [->|Hs]; [done|].
    destruct scales as [|s0 scales']; [done|].
    replace (0 <? N.of_nat (length (s0 :: scales'))) with true
      by (symmetry; apply N.ltb_lt; cbn; lia).
    by rewrite Hs. }
  rewrite Hinit. cbn [app] in Hloop.
  change (filled_upto 0 (length images) detections)
    with (replicate (length images) (@nil full_object_detection)) in Hloop.
  destruct Hloop as [Hres Hworld]. rewrite Hres. cbn [result world calls].
  split; [done|]. split; [done|]. apply test_copy_loop_calls.
Qed.

Lemma test_typed_conversion_failure_witness :
  result (run sample_collaborators
            (test_shape_predictor_with_images_py (PyList [sample_gray; PyInt 3])
               (PyList (py_detections [[sample_detection]; []]))
               (PyList (py_scales [])) "predictor.dat") [])
  = Raise unsupported_image_error ∧
  world (run sample_collaborators
           (test_shape_predictor_with_images_py (PyList [sample_gray; PyInt 3])
              (PyList (py_detections [[sample_detection]; []]))
              (PyList (py_scales [])) "predictor.dat") [])
  = [] ∧
  Forall (fun ev => is_inference ev = false)
    (calls (run sample_collaborators
              (test_shape_predictor_with_images_py
                 (PyList [sample_gray; PyInt 3])
                 (PyList (py_detections [[sample_detection]; []]))
                 (PyList (py_scales [])) "predictor.dat") [])).
Proof.
  apply test_typed_conversion_failure.
  - reflexivity.
  - by left.
  - reflexivity.
Defined.

(** ** Testing: the work done before an inner mismatch is found *)

Lemma test_copy_image_calls_typed {W : Type} (h : Dlib.collaborators W)
    (images detections scales : list object) (num_scales : N) (k j : nat)
    (st : test_data) (w : W) :
  first_mismatch_at h images detections scales k →
  (j ≤ k)%nat →
  ∃ img, images !! j = Some img ∧
    calls (run h (test_copy_image (PyList images) (PyList detections)
                    (PyList scales) num_scales (N.of_nat j) st) w)
    = [Ev_pyimage_to_dlib_image img].
Proof.
  intros (Htyped & _) Hj. destruct st as [[imgs dets] scs].
  destruct (Htyped j Hj) as (ds & img & Hds & Himg & Hconv).
  exists img. split; [done|]. rewrite run_test_copy_image.
  destruct (test_copy_head_typed images detections (N.of_nat j) ds img dets)
    as [d' ->]; [by rewrite Nat2N.id..|].
  by destruct (Hconv w) as (a & w' & ->).
Qed.

Lemma test_copy_loop_calls_first_mismatch {W : Type}
    (h : Dlib.collaborators W) (images detections scales : list object)
    (num_scales : N) (k : nat) :
  0 < num_scales →
  first_mismatch_at h images detections scales k →
  ∀ (n i : nat) (st : test_data) (w : W),
    (i ≤ k < i + n)%nat →
    calls (run h (for_range n (N.of_nat i)
                    (test_copy_image (PyList images) (PyList detections)
                       (PyList scales) num_scales) st) w)
    = map Ev_pyimage_to_dlib_image (take (Datatypes.S k - i) (drop i images)).
Proof.
  intros Hpos Hfirst n. induction n as [|n IH]; intros i st w Hk; [lia|].
  cbn [for_range]. rewrite run_bind.
  destruct (test_copy_image_calls_typed h images detections scales num_scales
              k i st w Hfirst ltac:(lia)) as (img & Himg & Hcalls).
  rewrite (drop_S _ _ _ Himg).
  replace (Datatypes.S k - i)%nat with (Datatypes.S (k - i)) by lia.
  cbn [take map].
  destruct (decide (i = k)) as [->|Hne].
  - rewrite (test_copy_image_at_mismatch h images detections scales
               num_scales k st w Hpos Hfirst).
    cbn [calls]. by rewrite Hcalls, Nat.sub_diag.
  - destruct (test_copy_image_before_mismatch h images detections scales
                num_scales k i st w Hfirst ltac:(lia)) as [st' ->].
    cbn [calls]. rewrite Hcalls.
    replace (N.of_nat i + 1) with (N.of_nat (Datatypes.S i)) by lia.
    rewrite IH by lia.
    by replace (Datatypes.S k - Datatypes.S i)%nat with (k - i)%nat by lia.
Qed.

(** X11.  On input that is well typed as far as image [k], the first
    image whose list of scales is not as long as its list of boxes, the
    images up to and including [k] are converted, in order, before the
    mismatch is found; nothing else is called and the error is the one
    that names the scales. *)
Theorem test_first_mismatch_work_done {W : Type} (h : Dlib.collaborators W)
    (w : W) (images detections scales : list object)
    (predictor_filename : string) (k : nat) :
  length images = length detections →
  length scales = length images →
  first_mismatch_at h images detections scales k →
  result (run h (test_shape_predictor_with_images_py (PyList images)
                   (PyList detections) (PyList scales) predictor_filename) w)
  = Raise scales_length_error ∧
  calls (run h (test_shape_predictor_with_images_py (PyList images)
                  (PyList detections) (PyList scales) predictor_filename) w)
  = map Ev_pyimage_to_dlib_image (take (Datatypes.S k) images).
Proof.
  intros Hlen Hsc Hfirst.
  split; [exact (test_first_mismatch_error h w images detections scales
                  predictor_filename k Hlen Hsc Hfirst)|].
  assert (Hk : (k < length images)%nat).
  { destruct Hfirst as (Htyped & _).
    destruct (Htyped k ltac:(lia)) as (ds & img & _ & Himg & _).
    by apply lookup_lt_Some in Himg. }
  assert (Hpos : 0 < N.of_nat (length images)) by lia.
  unfold test_shape_predictor_with_images_py.
  cbn [len lift bind prog_monad prog_bind_fix].
  rewrite Hsc, <- Hlen, N.eqb_refl. cbn [negb andb].
  replace (0 <? N.of_nat (length images)) with true
    by (symmetry; by apply N.ltb_lt).
  cbn [negb andb]. rewrite run_prog_bind_fix.
  match goal with
  | |- context [run h (for_range ?n 0 ?body ?st) w] =>
      pose proof (test_copy_loop_calls_first_mismatch h images detections
                    scales (N.of_nat (length images)) k Hpos Hfirst n 0%nat st w)
        as Hcalls;
      pose proof (test_copy_loop_first_mismatch h images detections scales
                    (N.of_nat (length images)) k Hpos Hfirst n 0%nat st w)
        as Hloop
  end.
  change (N.of_nat 0) with 0 in Hcalls, Hloop.
  rewrite Hloop by lia. cbn [calls]. rewrite Hcalls by lia.
  by rewrite drop_0, Nat.sub_0_r.
Qed.

Lemma test_first_mismatch_work_done_witness :
  result (run sample_collaborators
            (test_shape_predictor_with_images_py (PyList [sample_gray])
               (PyList [PyList [PyFullObjectDetection sample_detection]])
               (PyList [PyList [PyFloat 1; PyFloat 1]]) "predictor.dat") [])
  = Raise scales_length_error ∧
  calls (run sample_collaborators
           (test_shape_predictor_with_images_py (PyList [sample_gray])
              (PyList [PyList [PyFullObjectDetection sample_detection]])
              (PyList [PyList [PyFloat 1; PyFloat 1]]) "predictor.dat") [])
  = map Ev_pyimage_to_dlib_image (take 1 [sample_gray]).
Proof.
  apply test_first_mismatch_work_done;
    [reflexivity|reflexivity|apply sample_first_mismatch].
Defined.

(** ** The predictor call: when it is made *)

(** X12.  [run_predictor] calls the predictor at most once and calls
    nothing else.  It does not call it exactly when the box is not a
    rectangle or the image is neither grey nor RGB, and then it throws and
    leaves the world alone; when it calls it, what the predictor returns or
    throws and the world it leaves are those of the run. *)
Theorem run_predictor_calls {W : Type} (h : Dlib.collaborators W) (w : W)
    (predictor : shape_predictor) (img rect : object) :
  (calls (run h (run_predictor predictor img rect) w) = [] ↔
   (∀ box, rect ≠ PyRectangle box) ∨
   (Dlib.is_gray_python_image h img = false ∧
    Dlib.is_rgb_python_image h img = false)) ∧
  (calls (run h (run_predictor predictor img rect) w) = [] →
   world (run h (run_predictor predictor img rect) w) = w ∧
   ∃ e, result (run h (run_predictor predictor img rect) w) = Raise e) ∧
  (calls (run h (run_predictor predictor img rect) w) ≠ [] →
   ∃ box view,
     rect = PyRectangle box ∧
     (view = numpy_gray_image img ∨ view = numpy_rgb_image img) ∧
     run h (run_predictor predictor img rect) w
     = mk_ran (Dlib.predictor_call h predictor view box w).1
         (Dlib.predictor_call h predictor view box w).2
         [Ev_predictor predictor view box]).
Proof.
  destruct rect as [| | | | |box| |];
    try (unfold run_predictor; cbn;
         split; [split; [by left|done]|];
         split; [split; [done|by eexists]|done]).
  rewrite run_predictor_unfold. unfold predictor_call. cbn [run].
  unfold after_call.
  destruct (Dlib.is_gray_python_image h img) eqn:Hgray.
  - destruct (Dlib.predictor_call h predictor (numpy_gray_image img) box w)
      as [[d|e] w'] eqn:Hcall; cbn.
    all: split; [split; [done|intros [Hbox|[? ?]]; [by destruct (Hbox box)|done]]|].
    all: split; [done|]. all: intros _.
    all: exists box, (numpy_gray_image img).
    all: rewrite Hcall; split; [done|]; split; [by left|done].
  - destruct (Dlib.is_rgb_python_image h img) eqn:Hrgb.
    + destruct (Dlib.predictor_call h predictor (numpy_rgb_image img) box w)
        as [[d|e] w'] eqn:Hcall; cbn.
      all: split; [split; [done|intros [Hbox|[? ?]]; [by destruct (Hbox box)|done]]|].
      all: split; [done|]. all: intros _.
      all: exists box, (numpy_rgb_image img).
      all: rewrite Hcall; split; [done|]; split; [by right|done].
    + cbn. split; [split; [by right|done]|].
      split; [split; [done|by eexists]|done].
Qed.
